(** * A shallow embedding of the discovery and deletion engine of
    [env_manager.py] (venv_finder).

    The program reads a filesystem and, for Conda, an external CLI.  We model
    one snapshot of that world as the record [FS]: every query the code makes
    ([Path.is_dir], [Path.exists], [Path.iterdir], [Path.resolve],
    [Path.home], [Path.cwd], [shutil.which], [conda env list --json]) becomes
    a field.  Queries that Python may raise from are option-valued: [None]
    stands for the raised exception.  This includes [Path.is_dir()] and
    [Path.exists()], which up to Python 3.12 swallow only the "no such
    file" family of errors and raise on others such as [PermissionError].
    The text of an exception is abstracted to the name of its class in the
    lines the program prints.  The two mutating operations used by
    [delete_environment] ([shutil.rmtree] and [conda env remove]) are section
    variables of the deletion part. *)

From Stdlib Require Import String Ascii List Bool Lia.
Import ListNotations.
Open Scope string_scope.

(** ** Strings and paths *)

(** Python's [s.startswith(pre)]. *)
Definition startswith (s pre : string) : bool := String.prefix pre s.

(** Python's [needle in hay] on strings. *)
Fixpoint contains (needle hay : string) : bool :=
  String.prefix needle hay ||
  match hay with
  | EmptyString => false
  | String _ t => contains needle t
  end.

(** [str.lower()] on ASCII text. *)
Definition lower_ascii (c : ascii) : ascii :=
  let n := nat_of_ascii c in
  if Nat.leb 65%nat n && Nat.leb n 90%nat then ascii_of_nat (n + 32%nat) else c.

Fixpoint lower (s : string) : string :=
  match s with
  | EmptyString => EmptyString
  | String c t => String (lower_ascii c) (lower t)
  end.

(** The components of a POSIX path string, split on ["/"]. *)
Fixpoint split_slash (s : string) : list string :=
  match s with
  | EmptyString => [EmptyString]
  | String c t =>
      match split_slash t with
      | [] => [String c EmptyString]
      | cur :: rest =>
          if Ascii.eqb c "/" then EmptyString :: cur :: rest
          else String c cur :: rest
      end
  end.

(** [PurePosixPath(p).name]: the last component, empty and ["."] components
    being dropped by pathlib's normalisation; [""] for the root. *)
Definition path_name (p : string) : string :=
  last (filter (fun c => negb (String.eqb c "" || String.eqb c ".")) (split_slash p)) "".

Definition ends_with_slash (s : string) : bool :=
  match String.get (String.length s - 1) s with
  | Some c => Ascii.eqb c "/"
  | None => false
  end.

(** [str(Path(a) / b)] for a normalised [a] and a single component [b]. *)
Definition path_join (a b : string) : string :=
  if String.eqb a "" then b
  else if ends_with_slash a then a ++ b
  else a ++ "/" ++ b.

(** [a] is [p] or a directory above [p] (component-wise; the root ["/"]
    is above every absolute path). *)
Definition is_ancestor_path (a p : string) : bool :=
  String.eqb a p || String.prefix (if ends_with_slash a then a else a ++ "/") p.

(** ** Data model *)

(** [@dataclass class Environment]. *)
Record Environment := mkEnvironment {
  name : string;
  env_type : string;
  path : string
}.

(** An item of the ["envs"] member: a JSON string, or any other JSON value
    (on which [Path(path)] raises [TypeError]). *)
Inductive json_item :=
| JStr (s : string)
| JOther.

(** What [conda env list --json] followed by [json.loads] and
    [data.get("envs", [])] yields. *)
Inductive conda_output :=
| CondaRunFailed (exc : string)        (** [subprocess.run] raised ([CalledProcessError] on a non-zero exit, ...) *)
| CondaMalformed (exc : string)        (** [json.loads] raised, or the document has no [.get] ([AttributeError]) *)
| CondaJson (envs : option (list json_item)). (** a JSON object and the items of its ["envs"] member *)

(** One snapshot of the process's world. *)
Record FS := mkFS {
  executable : string;                  (** [sys.executable] *)
  home : string;                        (** [Path.home()] *)
  cwd : option string;                  (** [Path.cwd()]; [None] when [os.getcwd] raises *)
  is_dir : string -> option bool;       (** [Path.is_dir()]; [None] when it raises (e.g. [PermissionError]) *)
  exists_ : string -> option bool;      (** [Path.exists()]; [None] when it raises *)
  iterdir : string -> option (list string); (** entry names of [Path.iterdir()]; [None] when it raises *)
  resolve : string -> option string;    (** [Path.resolve().as_posix()]; [None] on [OSError]/[RuntimeError] *)
  which_conda : option string;          (** [shutil.which("conda")] *)
  conda_env_list : conda_output         (** the [conda env list --json] run *)
}.

(** A well-formed snapshot: an existing directory can be resolved. *)
Definition fs_wf (fs : FS) : Prop :=
  forall p, is_dir fs p = Some true -> resolve fs p <> None.

(** A Python call either returns a value or raises (the message). *)
Inductive outcome (A : Type) :=
| Returned (a : A)
| Raised (msg : string).
Arguments Returned {A} a.
Arguments Raised {A} msg.

(** ** Scanners *)

(** What a blocking scan run by [asyncio.to_thread] ends with: its list or
    the exception it raised, and the lines it printed on the way (printed
    lines stay printed when the scan raises afterwards). *)
Definition scan_result : Type := outcome (list Environment) * list string.

(** [print(f"Error scanning {base}: {exc}")]. *)
Definition base_error_log (base exc : string) : string :=
  "Error scanning " ++ base ++ ": " ++ exc.

(** [for base in paths: if base.is_dir(): ...], [scan_base] being the body
    for one base: an exception of [base.is_dir()], which no [try] covers,
    ends the loop and escapes the scanner. *)
Fixpoint scan_bases (scan_base : string -> scan_result) (bases : list string) : scan_result :=
  match bases with
  | [] => (Returned [], [])
  | b :: bs =>
      match scan_base b with
      | (Raised m, logs) => (Raised m, logs)
      | (Returned l, logs) =>
          match scan_bases scan_base bs with
          | (Raised m, logs') => (Raised m, (logs ++ logs')%list)
          | (Returned l', logs') => (Returned (l ++ l')%list, (logs ++ logs')%list)
          end
      end
  end.

(** The records a [for ... in base.iterdir()] loop appended, and the
    exception that ended it, if any. *)
Definition loop_result : Type := list Environment * option string.

Definition cons_record (e : Environment) (r : loop_result) : loop_result :=
  (e :: fst r, snd r).

(** [for x in xs: ... envs.append(...)]: [step x] raises, skips [x]
    ([Returned None]) or gives the record to append. *)
Fixpoint run_loop {A : Type} (step : A -> outcome (option Environment)) (xs : list A)
  : loop_result :=
  match xs with
  | [] => ([], None)
  | x :: rest =>
      match step x with
      | Raised exc => ([], Some exc)
      | Returned None => run_loop step rest
      | Returned (Some env) => cons_record env (run_loop step rest)
      end
  end.

(** The [try] around the loop of one base: the records appended before an
    exception stay in [envs], the exception is printed.  [listing] is
    [base.iterdir()]. *)
Definition try_loop (base : string) (listing : option (list string))
    (loop : list string -> loop_result) : list Environment * list string :=
  match listing with
  | None => ([], [base_error_log base "OSError"])
  | Some entries =>
      let r := loop entries in
      (fst r, match snd r with None => [] | Some exc => [base_error_log base exc] end)
  end.

(** The three base directories of [scan_venv_dirs]. *)
Definition venv_bases (h : string) : list string :=
  [ path_join h ".virtualenvs";
    path_join (path_join (path_join h ".cache") "pypoetry") "virtualenvs";
    path_join (path_join (path_join h ".local") "share") "virtualenvs" ].

(** [etype = "Poetry" if "pypoetry" in str(base) else "Pipenv" if "local" in
    str(base) else "venv"]. *)
Definition venv_type (base : string) : string :=
  if contains "pypoetry" base then "Poetry"
  else if contains "local" base then "Pipenv"
  else "venv".

(** The body of the loop of [scan_venv_dirs] for one entry:
    [if entry.is_dir() and (entry / "pyvenv.cfg").exists(): ...
    envs.append(Environment(..., path=str(entry.resolve())))]. *)
Definition venv_entry (fs : FS) (base e : string) : outcome (option Environment) :=
  let entry := path_join base e in
  match is_dir fs entry with
  | None => Raised "OSError"
  | Some false => Returned None
  | Some true =>
      match exists_ fs (path_join entry "pyvenv.cfg") with
      | None => Raised "OSError"
      | Some false => Returned None
      | Some true =>
          match resolve fs entry with
          | Some r => Returned (Some (mkEnvironment e (venv_type base) r))
          | None => Raised "OSError"
          end
      end
  end.

Definition scan_venv_entries (fs : FS) (base : string) (entries : list string) : loop_result :=
  run_loop (venv_entry fs base) entries.

(** One base of [scan_venv_dirs]: [if base.is_dir(): try: ... except: print]. *)
Definition scan_venv_base (fs : FS) (base : string) : scan_result :=
  match is_dir fs base with
  | None => (Raised "OSError", [])
  | Some false => (Returned [], [])
  | Some true =>
      let r := try_loop base (iterdir fs base) (scan_venv_entries fs base) in
      (Returned (fst r), snd r)
  end.

(** [blocking_scan] of [scan_venv_dirs]. *)
Definition blocking_venv_scan (fs : FS) : scan_result :=
  scan_bases (scan_venv_base fs) (venv_bases (home fs)).

Definition scan_venv_dirs (fs : FS) : outcome (list Environment) :=
  fst (blocking_venv_scan fs).

(** The three directories of the manual Conda scan. *)
Definition conda_bases (h : string) : list string :=
  [ path_join (path_join h "miniconda3") "envs";
    path_join (path_join h "anaconda3") "envs";
    path_join (path_join h ".conda") "envs" ].

(** [(env_dir / "conda-meta").is_dir() or (env_dir / "bin" / "python").exists()],
    [None] when the call evaluated raises. *)
Definition conda_marker (fs : FS) (env_dir : string) : option bool :=
  match is_dir fs (path_join env_dir "conda-meta") with
  | None => None
  | Some true => Some true
  | Some false => exists_ fs (path_join (path_join env_dir "bin") "python")
  end.

(** The body of the loop of the manual Conda scan for one entry. *)
Definition conda_entry (fs : FS) (base e : string) : outcome (option Environment) :=
  let env_dir := path_join base e in
  match is_dir fs env_dir with
  | None => Raised "OSError"
  | Some false => Returned None
  | Some true =>
      match conda_marker fs env_dir with
      | None => Raised "OSError"
      | Some false => Returned None
      | Some true =>
          match resolve fs env_dir with
          | Some r => Returned (Some (mkEnvironment e "Conda" r))
          | None => Raised "OSError"
          end
      end
  end.

Definition scan_conda_entries (fs : FS) (base : string) (entries : list string) : loop_result :=
  run_loop (conda_entry fs base) entries.

Definition scan_conda_base (fs : FS) (base : string) : scan_result :=
  match is_dir fs base with
  | None => (Raised "OSError", [])
  | Some false => (Returned [], [])
  | Some true =>
      let r := try_loop base (iterdir fs base) (scan_conda_entries fs base) in
      (Returned (fst r), snd r)
  end.

Definition msg_conda_not_found : string := "Conda CLI not found; performing manual scan.".

(** The [else] branch of [blocking_conda_scan]: the manual scan. *)
Definition conda_manual_scan (fs : FS) : scan_result :=
  let r := scan_bases (scan_conda_base fs) (conda_bases (home fs)) in
  (fst r, msg_conda_not_found :: snd r).

(** The loop [for path in data.get("envs", [])]: [Path(path)] raises
    [TypeError] on an item that is not a string. *)
Definition cli_item (item : json_item) : outcome (option Environment) :=
  match item with
  | JStr p => Returned (Some (mkEnvironment (path_name p) "Conda" p))
  | JOther => Raised "TypeError"
  end.

Definition cli_records (items : list json_item) : loop_result := run_loop cli_item items.

(** [print("Error scanning Conda via CLI:", exc)]. *)
Definition cli_error_log (exc : string) : string := "Error scanning Conda via CLI: " ++ exc.

(** The [if conda_path] branch: the CLI listing inside its [try]. *)
Definition conda_cli_scan (out : conda_output) : list Environment * list string :=
  match out with
  | CondaRunFailed exc | CondaMalformed exc => ([], [cli_error_log exc])
  | CondaJson None => ([], [])
  | CondaJson (Some items) =>
      let r := cli_records items in
      (fst r, match snd r with None => [] | Some exc => [cli_error_log exc] end)
  end.

(** [blocking_conda_scan]. *)
Definition blocking_conda_scan (fs : FS) : scan_result :=
  match which_conda fs with
  | Some _ => let r := conda_cli_scan (conda_env_list fs) in (Returned (fst r), snd r)
  | None => conda_manual_scan fs
  end.

Definition scan_conda_envs (fs : FS) : outcome (list Environment) :=
  fst (blocking_conda_scan fs).

(** [scan_current_dir_venv]: no [try]; [Path.cwd()], the two checks and
    [resolve()] raise through it. *)
Definition scan_current_dir_venv (fs : FS) : outcome (list Environment) :=
  match cwd fs with
  | None => Raised "FileNotFoundError"
  | Some c =>
      let potential := path_join c ".venv" in
      match is_dir fs potential with
      | None => Raised "OSError"
      | Some false => Returned []
      | Some true =>
          match exists_ fs (path_join potential "pyvenv.cfg") with
          | None => Raised "OSError"
          | Some false => Returned []
          | Some true =>
              match resolve fs potential with
              | Some r => Returned [mkEnvironment (path_name c) "venv (local)" r]
              | None => Raised "OSError"
              end
          end
      end
  end.

(** ** The discovery orchestrator *)

(** The line printed for a failed scanner. *)
Definition scan_error_log (msg : string) : string := "Error in scanning: " ++ msg.

(** One iteration of [for result in results]: a raised exception (returned by
    [gather(..., return_exceptions=True)]) is printed, a list is appended. *)
Definition collect_step (st : list Environment * list string)
    (result : outcome (list Environment)) : list Environment * list string :=
  match result with
  | Raised msg => (fst st, (snd st ++ [scan_error_log msg])%list)
  | Returned l => ((fst st ++ l)%list, snd st)
  end.

(** [scan_all_environments] over any three scanners; the returned pair is the
    list [envs] and the lines printed. *)
Definition scan_all_with (s1 s2 s3 : FS -> outcome (list Environment)) (fs : FS)
  : list Environment * list string :=
  fold_left collect_step [s1 fs; s2 fs; s3 fs] ([], []).

Definition scan_all_environments (fs : FS) : list Environment * list string :=
  scan_all_with scan_venv_dirs scan_conda_envs scan_current_dir_venv fs.

(** ** Deduplication in the caller [MainWindow.refresh_environments] *)

(** [d[k] = v] on a Python dict kept as an insertion-ordered association
    list: an existing key keeps its position and gets the new value. *)
Fixpoint dict_set (k : string) (v : Environment) (d : list (string * Environment))
  : list (string * Environment) :=
  match d with
  | [] => [(k, v)]
  | (k', v') :: d' => if String.eqb k k' then (k', v) :: d' else (k', v') :: dict_set k v d'
  end.

(** [list({env.path: env for env in envs}.values())]. *)
Definition dedup_by_path (envs : list Environment) : list Environment :=
  map snd (fold_left (fun d env => dict_set (path env) env d) envs []).

(** The list [refresh_environments] stores in [self.all_envs]. *)
Definition refresh_envs (fs : FS) : list Environment :=
  dedup_by_path (fst (scan_all_environments fs)).

(** ** Safety guard and deletion *)

(** [Path(sys.executable).resolve().as_posix().startswith(
       Path(env_path).resolve().as_posix())], [False] on [OSError]/[RuntimeError]. *)
Definition is_current_env (fs : FS) (env_path : string) : bool :=
  match resolve fs (executable fs) with
  | None => false
  | Some exe =>
      match resolve fs env_path with
      | None => false
      | Some p => startswith exe p
      end
  end.

Definition msg_in_use : string := "Cannot delete the environment currently in use.".
Definition msg_conda_base : string := "Cannot delete the Conda base environment.".

Section Deletion.

(** [shutil.rmtree(path)] and [conda env remove --prefix path -y]: the world
    afterwards and the error they raised, if any (a failed removal may leave
    a partially removed tree). *)
Variable rmtree : FS -> string -> FS * option string.
Variable conda_remove : FS -> string -> FS * option string.

(** The inner [blocking_delete] of the Conda branch. *)
Definition blocking_conda_delete (fs : FS) (p : string) : FS * (bool * string) :=
  match conda_remove fs p with
  | (fs', None) => (fs', (true, "Conda environment removed successfully."))
  | (fs', Some err) => (fs', (false, "Error deleting Conda environment: " ++ err))
  end.

(** The inner [blocking_delete] of the other branch. *)
Definition blocking_rmtree_delete (fs : FS) (p : string) : FS * (bool * string) :=
  match rmtree fs p with
  | (fs', None) => (fs', (true, "Environment removed successfully."))
  | (fs', Some err) => (fs', (false, "Error deleting environment: " ++ err))
  end.

Definition delete_environment (fs : FS) (env : Environment) : FS * (bool * string) :=
  if is_current_env fs (path env) then (fs, (false, msg_in_use))
  else if String.eqb (env_type env) "Conda" then
    if String.eqb (lower (name env)) "base" then (fs, (false, msg_conda_base))
    else blocking_conda_delete fs (path env)
  else blocking_rmtree_delete fs (path env).

End Deletion.

(** ** Concrete snapshots *)

Definition mem (xs : list string) (p : string) : bool := existsb (String.eqb p) xs.

(** A snapshot given by its directories, its other files and the listing of
    some directories; every path is already canonical, so [resolve] is the
    identity. *)
Definition fs_of (exe h : string) (c : option string) (dirs files : list string)
    (listing : list (string * list string)) (which : option string)
    (out : conda_output) : FS :=
  {| executable := exe;
     home := h;
     cwd := c;
     is_dir := fun p => Some (mem dirs p);
     exists_ := fun p => Some (mem dirs p || mem files p);
     iterdir := fun p =>
       match find (fun kv => String.eqb (fst kv) p) listing with
       | Some (_, es) => Some es
       | None => None
       end;
     resolve := fun p => Some p;
     which_conda := which;
     conda_env_list := out |}.

(** [shutil.rmtree(p)] succeeding: [p] and everything below it disappear. *)
Definition rmtree_ok (fs : FS) (p : string) : FS * option string :=
  ({| executable := executable fs;
      home := home fs;
      cwd := cwd fs;
      is_dir := fun q => if is_ancestor_path p q then Some false else is_dir fs q;
      exists_ := fun q => if is_ancestor_path p q then Some false else exists_ fs q;
      iterdir := iterdir fs;
      resolve := resolve fs;
      which_conda := which_conda fs;
      conda_env_list := conda_env_list fs |}, None).

(** [chmod 000 d]: [d] itself is still seen, but [stat] of anything below
    it fails with [PermissionError], so [Path.is_dir()] and
    [Path.exists()] raise there, and listing [d] raises ([resolve()] is not
    strict and does not). *)
Definition lock (fs : FS) (d : string) : FS :=
  let below q := is_ancestor_path d q && negb (String.eqb d q) in
  {| executable := executable fs;
     home := home fs;
     cwd := cwd fs;
     is_dir := fun q => if below q then None else is_dir fs q;
     exists_ := fun q => if below q then None else exists_ fs q;
     iterdir := fun q => if String.eqb d q then None else iterdir fs q;
     resolve := resolve fs;
     which_conda := which_conda fs;
     conda_env_list := conda_env_list fs |}.

(** The venv scanner's fixture: [<home>/.virtualenvs/myenv/pyvenv.cfg]. *)
Definition fs_myenv (h : string) : FS :=
  fs_of "/usr/bin/python3" h (Some h)
    [h; path_join h ".virtualenvs"; path_join (path_join h ".virtualenvs") "myenv"]
    [path_join (path_join (path_join h ".virtualenvs") "myenv") "pyvenv.cfg"]
    [(path_join h ".virtualenvs", ["myenv"])]
    None (CondaMalformed "JSONDecodeError").

(** The local-project fixture: [/tmp/project/.venv/pyvenv.cfg]. *)
Definition fs_project : FS :=
  fs_of "/usr/bin/python3" "/home/u" (Some "/tmp/project")
    ["/tmp"; "/tmp/project"; "/tmp/project/.venv"]
    ["/tmp/project/.venv/pyvenv.cfg"] [] None (CondaMalformed "JSONDecodeError").

(** The manual Conda fixture: [<home>/miniconda3/envs/foo/conda-meta/]. *)
Definition fs_conda_foo (which : option string) (out : conda_output) : FS :=
  fs_of "/usr/bin/python3" "/home/u" (Some "/home/u")
    ["/home/u"; "/home/u/miniconda3"; "/home/u/miniconda3/envs";
     "/home/u/miniconda3/envs/foo"; "/home/u/miniconda3/envs/foo/conda-meta"]
    [] [("/home/u/miniconda3/envs", ["foo"])] which out.

(** The records of a scanner's outcome and the lines printed for it. *)
Definition scan_records (r : outcome (list Environment)) : list Environment :=
  match r with Returned l => l | Raised _ => [] end.

Definition scan_failure_logs (r : outcome (list Environment)) : list string :=
  match r with Raised msg => [scan_error_log msg] | Returned _ => [] end.

Definition dedup_dict (envs : list Environment) : list (string * Environment) :=
  fold_left (fun d env => dict_set (path env) env d) envs [].

(** The snapshot of the duplicate scenario: [~/.virtualenvs/proj] is a
    symbolic link to the project's [.venv], which is also the working
    directory's local environment. *)
Definition fs_dup : FS :=
  let base := fs_of "/usr/bin/python3" "/home/u" (Some "/home/u/proj")
      ["/home/u"; "/home/u/.virtualenvs"; "/home/u/.virtualenvs/proj";
       "/home/u/proj"; "/home/u/proj/.venv"]
      ["/home/u/.virtualenvs/proj/pyvenv.cfg"; "/home/u/proj/.venv/pyvenv.cfg"]
      [("/home/u/.virtualenvs", ["proj"])] None (CondaMalformed "JSONDecodeError") in
  {| executable := executable base; home := home base; cwd := cwd base;
     is_dir := is_dir base; exists_ := exists_ base; iterdir := iterdir base;
     resolve := fun p =>
       if String.eqb p "/home/u/.virtualenvs/proj" then Some "/home/u/proj/.venv"
       else Some p;
     which_conda := which_conda base; conda_env_list := conda_env_list base |}.

(** The interpreter runs from [/home/u/venv2]; [/home/u/venv] does not exist. *)
Definition fs_venv2 : FS :=
  fs_of "/home/u/venv2/bin/python" "/home/u" (Some "/home/u")
    ["/home/u"; "/home/u/venv2"; "/home/u/venv2/bin"]
    ["/home/u/venv2/bin/python"; "/home/u/venv2/pyvenv.cfg"] [] None (CondaMalformed "JSONDecodeError").

(** The interpreter of the Conda base environment [/opt/conda] runs the
    program. *)
Definition fs_conda_base : FS :=
  fs_of "/opt/conda/bin/python" "/home/u" (Some "/home/u")
    ["/home/u"; "/opt/conda"; "/opt/conda/bin"; "/opt/conda/conda-meta"]
    ["/opt/conda/bin/python"] [] (Some "/opt/conda/bin/conda") (CondaJson (Some [JStr "/opt/conda"])).

Definition env_conda_base : Environment := mkEnvironment "base" "Conda" "/opt/conda".

Definition env_conda_BASE : Environment :=
  mkEnvironment "BASE" "Conda" "/home/u/miniconda3".

(** A plain venv named [base] from which the program runs. *)
Definition fs_venv_base : FS :=
  fs_of "/home/u/.virtualenvs/base/bin/python" "/home/u" (Some "/home/u")
    ["/home/u"; "/home/u/.virtualenvs"; "/home/u/.virtualenvs/base";
     "/home/u/.virtualenvs/base/bin"]
    ["/home/u/.virtualenvs/base/bin/python"; "/home/u/.virtualenvs/base/pyvenv.cfg"]
    [("/home/u/.virtualenvs", ["base"])] None (CondaMalformed "JSONDecodeError").

Definition env_venv_base : Environment :=
  mkEnvironment "base" "venv" "/home/u/.virtualenvs/base".

Definition env_venv_BaSe : Environment :=
  mkEnvironment "BaSe" "venv" "/home/u/.virtualenvs/base".

(** The Conda CLI lists [/gone/env], which is not a directory of the
    snapshot. *)
Definition fs_conda_gone : FS :=
  fs_of "/usr/bin/python3" "/home/u" (Some "/home/u") ["/home/u"] []
    [] (Some "/usr/bin/conda") (CondaJson (Some [JStr "/gone/env"])).

(** ** The window's refresh and deletion flow ([MainWindow]) *)

(** What the window shows the user: message boxes and status-bar texts. *)
Inductive ui_event :=
| WarnNoSelection                  (** [QMessageBox.warning(..., "No Selection", ...)] *)
| AskConfirm (env : Environment)   (** [QMessageBox.question(..., "Confirm Deletion", ...)] *)
| StatusMessage (msg : string)     (** [self.status_bar.showMessage(msg)] *)
| InfoDeleted (msg : string)       (** [QMessageBox.information(self, "Deleted", message)] *)
| CriticalFailed (msg : string)    (** [QMessageBox.critical(self, "Deletion Failed", message)] *)
| FoundEnvironments (n : nat).     (** [showMessage(f"Found {n} environments.", 5000)] *)

(** The window's data: [self.all_envs] and the table model's
    [environments]. *)
Record Window := mkWindow {
  all_envs : list Environment;
  table_envs : list Environment
}.

(** [refresh_environments]: scan, deduplicate by path, store the list in
    [self.all_envs] and in the table model, report the count.  Its
    [except Exception] branch is not reachable here: the scan and the
    dict comprehension return in every snapshot. *)
Definition refresh_environments (fs : FS) (w : Window) : Window * list ui_event :=
  let envs := refresh_envs fs in
  (mkWindow envs envs,
   [StatusMessage "Scanning for environments..."; FoundEnvironments (length envs)]).

Section Window_flow.

Variable rmtree : FS -> string -> FS * option string.
Variable conda_remove : FS -> string -> FS * option string.

(** [delete_selected]: [selected] is the source row of the first selected
    row ([None] when no row is selected), [reply_yes] the user's answer.
    Indexing the table out of range raises [IndexError] out of the task.
    The [except Exception] around [delete_environment] is not reachable:
    [delete_environment] returns in every case. *)
Definition delete_selected (fs : FS) (w : Window) (selected : option nat) (reply_yes : bool)
  : outcome (FS * Window * list ui_event) :=
  match selected with
  | None => Returned (fs, w, [WarnNoSelection])
  | Some row =>
      match nth_error (table_envs w) row with
      | None => Raised "IndexError"
      | Some env =>
          if negb reply_yes then Returned (fs, w, [AskConfirm env])
          else
            let '(fs', (success, message)) := delete_environment rmtree conda_remove fs env in
            let '(w', evs) := refresh_environments fs' w in
            Returned (fs', w',
              ([AskConfirm env; StatusMessage "Deleting environment...";
                if success then InfoDeleted message else CriticalFailed message] ++ evs)%list)
      end
  end.

End Window_flow.

(** A world where [~/.virtualenvs/broken] cannot be resolved. *)
Definition fs_broken : FS :=
  let base := fs_of "/usr/bin/python3" "/home/u" (Some "/home/u")
      ["/home/u"; "/home/u/.virtualenvs"; "/home/u/.virtualenvs/a";
       "/home/u/.virtualenvs/broken"; "/home/u/.virtualenvs/z"]
      ["/home/u/.virtualenvs/a/pyvenv.cfg"; "/home/u/.virtualenvs/broken/pyvenv.cfg";
       "/home/u/.virtualenvs/z/pyvenv.cfg"]
      [("/home/u/.virtualenvs", ["a"; "broken"; "z"])] None (CondaMalformed "JSONDecodeError") in
  {| executable := executable base; home := home base; cwd := cwd base;
     is_dir := is_dir base; exists_ := exists_ base; iterdir := iterdir base;
     resolve := fun p =>
       if String.eqb p "/home/u/.virtualenvs/broken" then None else Some p;
     which_conda := which_conda base; conda_env_list := conda_env_list base |}.

Definition env_myenv : Environment :=
  mkEnvironment "myenv" "venv" "/home/u/.virtualenvs/myenv".

Definition window_myenv : Window := mkWindow [env_myenv] [env_myenv].

(** The checks of one venv entry return: neither [entry.is_dir()] nor,
    when it is evaluated, [(entry / "pyvenv.cfg").exists()] raises. *)
Definition venv_checks_return (fs : FS) (entry : string) : bool :=
  match is_dir fs entry with
  | None => false
  | Some false => true
  | Some true =>
      match exists_ fs (path_join entry "pyvenv.cfg") with None => false | Some _ => true end
  end.

(** A venv entry passes both checks. *)
Definition venv_qualifies (fs : FS) (entry : string) : bool :=
  match is_dir fs entry, exists_ fs (path_join entry "pyvenv.cfg") with
  | Some true, Some true => true
  | _, _ => false
  end.

(** The checks of one entry of a Conda directory return. *)
Definition conda_checks_return (fs : FS) (env_dir : string) : bool :=
  match is_dir fs env_dir with
  | None => false
  | Some false => true
  | Some true => match conda_marker fs env_dir with None => false | Some _ => true end
  end.

(** An entry of a Conda directory passes both checks. *)
Definition conda_qualifies (fs : FS) (env_dir : string) : bool :=
  match is_dir fs env_dir, conda_marker fs env_dir with
  | Some true, Some true => true
  | _, _ => false
  end.

(** The string items of the CLI listing before the first other one. *)
Fixpoint json_strings (items : list json_item) : list string :=
  match items with
  | JStr p :: rest => p :: json_strings rest
  | _ => []
  end.

(** The local-project fixture with a [.venv] without search permission. *)
Definition fs_venv_locked : FS := lock fs_project "/tmp/project/.venv".

(** [~/.virtualenvs] lists [aaa], without search permission, before the
    environment [myenv]. *)
Definition fs_locked_entry : FS :=
  lock (fs_of "/usr/bin/python3" "/home/u" (Some "/home/u")
          ["/home/u"; "/home/u/.virtualenvs"; "/home/u/.virtualenvs/aaa";
           "/home/u/.virtualenvs/myenv"]
          ["/home/u/.virtualenvs/myenv/pyvenv.cfg"]
          [("/home/u/.virtualenvs", ["aaa"; "myenv"])] None (CondaMalformed "JSONDecodeError"))
       "/home/u/.virtualenvs/aaa".

(** [~/miniconda3/envs] lists [aaa], without search permission, before
    the environment [foo]. *)
Definition fs_conda_locked_entry : FS :=
  lock (fs_of "/usr/bin/python3" "/home/u" (Some "/home/u")
          ["/home/u"; "/home/u/miniconda3"; "/home/u/miniconda3/envs";
           "/home/u/miniconda3/envs/aaa"; "/home/u/miniconda3/envs/foo";
           "/home/u/miniconda3/envs/foo/conda-meta"]
          [] [("/home/u/miniconda3/envs", ["aaa"; "foo"])] None (CondaRunFailed "CalledProcessError"))
       "/home/u/miniconda3/envs/aaa".


Example scan_venv_dirs_myenv :
  scan_venv_dirs (fs_myenv "/home/u")
  = Returned [mkEnvironment "myenv" "venv" "/home/u/.virtualenvs/myenv"].
Proof. reflexivity. Qed.

Example scan_current_dir_venv_project :
  scan_current_dir_venv fs_project
  = Returned [mkEnvironment "project" "venv (local)" "/tmp/project/.venv"].
Proof. reflexivity. Qed.

Example scan_conda_envs_manual_foo :
  scan_conda_envs (fs_conda_foo None (CondaRunFailed "CalledProcessError"))
  = Returned [mkEnvironment "foo" "Conda" "/home/u/miniconda3/envs/foo"].
Proof. reflexivity. Qed.

Example path_name_examples :
  path_name "/tmp/project" = "project" /\ path_name "/opt/conda/envs/foo/" = "foo"
  /\ path_name "/" = "".
Proof. repeat split; reflexivity. Qed.

Example lower_base : lower "BaSe" = "base".
Proof. reflexivity. Qed.

(** ** Properties of the orchestrator and of the caller's deduplication *)

Lemma fold_collect_step (rs : list (outcome (list Environment)))
    (acc : list Environment) (logs : list string) :
  fold_left collect_step rs (acc, logs)
  = ((acc ++ flat_map scan_records rs)%list, (logs ++ flat_map scan_failure_logs rs)%list).
Proof.
  revert acc logs; induction rs as [|r rs IH]; intros acc logs; simpl.
  - now rewrite !app_nil_r.
  - destruct r as [l|msg]; simpl; rewrite IH; f_equal; now rewrite <- ?app_assoc.
Qed.

Lemma scan_all_with_eq (s1 s2 s3 : FS -> outcome (list Environment)) (fs : FS) :
  scan_all_with s1 s2 s3 fs
  = ((scan_records (s1 fs) ++ scan_records (s2 fs) ++ scan_records (s3 fs))%list,
     (scan_failure_logs (s1 fs) ++ scan_failure_logs (s2 fs) ++ scan_failure_logs (s3 fs))%list).
Proof.
  unfold scan_all_with. rewrite fold_collect_step. simpl.
  now rewrite !app_nil_r.
Qed.

(** Facts about [dict_set] on a dict whose keys are distinct. *)
Lemma in_keys_dict_set (k k' : string) (v : Environment) (d : list (string * Environment)) :
  In k' (map fst (dict_set k v d)) <-> k' = k \/ In k' (map fst d).
Proof.
  induction d as [|[k0 v0] d IH]; simpl.
  - intuition congruence.
  - destruct (String.eqb k k0) eqn:E; simpl.
    + apply String.eqb_eq in E; subst k0. intuition congruence.
    + rewrite IH. tauto.
Qed.

Lemma nodup_dict_set (k : string) (v : Environment) (d : list (string * Environment)) :
  NoDup (map fst d) -> NoDup (map fst (dict_set k v d)).
Proof.
  induction d as [|[k0 v0] d IH]; simpl; intros Hnd.
  - constructor; [intros []|constructor].
  - inversion Hnd as [|? ? Hnin Hnd']; subst.
    destruct (String.eqb k k0) eqn:E; simpl.
    + now constructor.
    + constructor; [|now apply IH].
      rewrite in_keys_dict_set. intros [->|H]; [|contradiction].
      now rewrite String.eqb_refl in E.
Qed.

Lemma in_dict_set (k k' : string) (v v' : Environment) (d : list (string * Environment)) :
  NoDup (map fst d) ->
  In (k', v') (dict_set k v d) -> (k' = k /\ v' = v) \/ (In (k', v') d /\ k' <> k).
Proof.
  induction d as [|[k0 v0] d IH]; simpl; intros Hnd H.
  - destruct H as [H|[]]. injection H; intros; subst; left; auto.
  - inversion Hnd as [|? ? Hnin Hnd']; subst.
    destruct (String.eqb k k0) eqn:E.
    + apply String.eqb_eq in E; subst k0.
      destruct H as [H|H].
      * injection H; intros; subst; left; auto.
      * right; split; [now right|].
        intros ->. apply Hnin. now apply (in_map fst) in H.
    + destruct H as [H|H].
      * injection H; intros; subst. right; split; [now left|].
        intros ->. now rewrite String.eqb_refl in E.
      * destruct (IH Hnd' H) as [?|[? ?]]; [now left | right; split; auto].
Qed.

Lemma dedup_dict_snoc (envs : list Environment) (e : Environment) :
  dedup_dict (envs ++ [e]) = dict_set (path e) e (dedup_dict envs).
Proof. unfold dedup_dict. now rewrite fold_left_app. Qed.

(** The invariant of the dict comprehension over a prefix of [envs]. *)
Lemma dedup_dict_inv (envs : list Environment) :
  NoDup (map fst (dedup_dict envs)) /\
  (forall k, In k (map fst (dedup_dict envs)) <-> In k (map path envs)) /\
  (forall k v, In (k, v) (dedup_dict envs) ->
     k = path v /\
     exists l1 l2, envs = (l1 ++ v :: l2)%list /\ forall e', In e' l2 -> path e' <> path v).
Proof.
  induction envs as [|e envs IH] using rev_ind.
  - simpl. repeat split; try constructor; tauto.
  - destruct IH as [Hnd [Hkeys Hlast]].
    rewrite dedup_dict_snoc. split; [|split].
    + now apply nodup_dict_set.
    + intros k. rewrite in_keys_dict_set, Hkeys, map_app, in_app_iff. simpl.
      intuition congruence.
    + intros k v Hin.
      destruct (in_dict_set _ _ _ _ _ Hnd Hin) as [[-> ->]|[Hin' Hne]].
      * split; [reflexivity|]. exists envs, []. split; [reflexivity|]. intros ? [].
      * destruct (Hlast _ _ Hin') as [Hk [l1 [l2 [Henv Hl2]]]].
        split; [exact Hk|].
        exists l1, (l2 ++ [e])%list. split.
        -- rewrite Henv. now rewrite <- app_assoc.
        -- intros e' He'. apply in_app_iff in He'. destruct He' as [He'|[<-|[]]].
           ++ now apply Hl2.
           ++ intros Heq. apply Hne. congruence.
Qed.

Lemma dedup_by_path_props (envs : list Environment) :
  NoDup (map path (dedup_by_path envs)) /\
  (forall p, In p (map path envs) <-> In p (map path (dedup_by_path envs))) /\
  (forall e, In e (dedup_by_path envs) ->
     exists l1 l2, envs = (l1 ++ e :: l2)%list /\ forall e', In e' l2 -> path e' <> path e).
Proof.
  destruct (dedup_dict_inv envs) as [Hnd [Hkeys Hlast]].
  assert (Hmap : map path (dedup_by_path envs) = map fst (dedup_dict envs)).
  { unfold dedup_by_path. fold (dedup_dict envs). rewrite map_map.
    apply map_ext_in. intros [k v] Hin. simpl. symmetry. now apply (Hlast k v). }
  rewrite Hmap. repeat split; auto.
  - intros Hp. now apply Hkeys.
  - intros Hp. now apply Hkeys.
  - intros e He. unfold dedup_by_path in He. fold (dedup_dict envs) in He.
    apply in_map_iff in He. destruct He as [[k v] [Hv Hin]]. simpl in Hv; subst v.
    now apply (Hlast k e).
Qed.

(** ** The loops and the iteration over the bases *)

Lemma run_loop_origin {A : Type} (step : A -> outcome (option Environment)) (xs : list A)
    (e : Environment) :
  In e (fst (run_loop step xs)) -> exists x, In x xs /\ step x = Returned (Some e).
Proof.
  induction xs as [|x xs IH]; simpl; [intros []|].
  destruct (step x) as [[env|]|exc] eqn:Hs; simpl.
  - intros [<-|H]; [exists x; auto|].
    destruct (IH H) as [y [Hy Hy']]. exists y; auto.
  - intros H. destruct (IH H) as [y [Hy Hy']]. exists y; auto.
  - intros [].
Qed.

(** A step that raises ends the loop: what follows it is not recorded. *)
Lemma run_loop_stop {A : Type} (step : A -> outcome (option Environment))
    (pre : list A) (x : A) (post : list A) (exc : string) :
  step x = Raised exc ->
  fst (run_loop step (pre ++ x :: post)%list) = fst (run_loop step pre)
  /\ snd (run_loop step (pre ++ x :: post)%list) <> None.
Proof.
  intros Hx. induction pre as [|y pre IH]; simpl.
  - rewrite Hx. split; [reflexivity|discriminate].
  - destruct (step y) as [[env|]|exc'] eqn:Hy; simpl.
    + unfold cons_record. simpl. destruct IH as [H1 H2]. now rewrite H1.
    + exact IH.
    + split; [reflexivity|discriminate].
Qed.

(** When no step raises, the loop records what each step gives. *)
Lemma run_loop_total {A : Type} (step : A -> outcome (option Environment)) (xs : list A) :
  (forall x, In x xs -> exists o, step x = Returned o) ->
  run_loop step xs
  = (flat_map (fun x => match step x with Returned (Some e) => [e] | _ => [] end) xs, None).
Proof.
  induction xs as [|x xs IH]; simpl; intros Hr; [reflexivity|].
  destruct (Hr x (or_introl eq_refl)) as [o Ho]. rewrite Ho.
  rewrite IH by (intros y Hy; apply Hr; now right).
  destruct o; reflexivity.
Qed.

(** An entry recorded after entries whose steps return is in the records. *)
Lemma run_loop_found {A : Type} (step : A -> outcome (option Environment))
    (pre : list A) (x : A) (post : list A) (e : Environment) :
  (forall y, In y pre -> exists o, step y = Returned o) ->
  step x = Returned (Some e) -> In e (fst (run_loop step (pre ++ x :: post)%list)).
Proof.
  intros Hpre Hx. induction pre as [|y pre IH]; simpl.
  - rewrite Hx. now left.
  - destruct (Hpre y (or_introl eq_refl)) as [[env|] Hy]; rewrite Hy.
    + right. apply IH. intros z Hz. apply Hpre. now right.
    + apply IH. intros z Hz. apply Hpre. now right.
Qed.

Lemma scan_bases_returned (f : string -> scan_result) (bases : list string) (l : list Environment) :
  fst (scan_bases f bases) = Returned l ->
  l = flat_map (fun b => scan_records (fst (f b))) bases
  /\ snd (scan_bases f bases) = flat_map (fun b => snd (f b)) bases
  /\ Forall (fun b => exists lb, fst (f b) = Returned lb) bases.
Proof.
  revert l; induction bases as [|b bs IH]; intros l; simpl.
  - intros H. injection H; intros <-. repeat split; constructor.
  - destruct (f b) as [[lb|m] logs] eqn:Hf; simpl; [|discriminate].
    destruct (scan_bases f bs) as [[l'|m'] logs'] eqn:Hr; simpl; [|discriminate].
    intros H. injection H; intros <-.
    destruct (IH l' eq_refl) as [H1 [H2 H3]]. simpl in H2.
    split; [now rewrite H1|]. split; [now rewrite H2|].
    constructor; [exists lb; now rewrite Hf|exact H3].
Qed.

Lemma scan_bases_ok (f : string -> scan_result) (bases : list string) :
  Forall (fun b => exists lb, fst (f b) = Returned lb) bases ->
  exists l, fst (scan_bases f bases) = Returned l.
Proof.
  induction bases as [|b bs IH]; simpl; intros Hall; [now exists []|].
  inversion Hall as [|? ? [lb Hb] Hbs]; subst.
  destruct (f b) as [r logs] eqn:Hf. simpl in Hb; subst r.
  destruct (IH Hbs) as [l' Hl'].
  destruct (scan_bases f bs) as [r' logs']. simpl in Hl'; subst r'.
  eexists; reflexivity.
Qed.

(** The base iteration returns exactly when no base's [is_dir()] raises. *)
Lemma scan_bases_is_dir (fs : FS) (f : string -> scan_result) (bases : list string) :
  (forall b, (exists lb, fst (f b) = Returned lb) <-> is_dir fs b <> None) ->
  (exists l, fst (scan_bases f bases) = Returned l) <-> Forall (fun b => is_dir fs b <> None) bases.
Proof.
  intros Hf. split.
  - intros [l Hl]. destruct (scan_bases_returned f bases l Hl) as [_ [_ H]].
    eapply Forall_impl; [|exact H]. intros b Hb. now apply Hf.
  - intros H. apply scan_bases_ok. eapply Forall_impl; [|exact H]. intros b Hb. now apply Hf.
Qed.

Lemma scan_venv_base_is_dir (fs : FS) (base : string) :
  (exists lb, fst (scan_venv_base fs base) = Returned lb) <-> is_dir fs base <> None.
Proof.
  unfold scan_venv_base. destruct (is_dir fs base) as [[|]|]; simpl.
  - split; [discriminate|eexists; reflexivity].
  - split; [discriminate|eexists; reflexivity].
  - split; [intros [lb H]; discriminate H|contradiction].
Qed.


Lemma scan_venv_base_records (fs : FS) (base : string) :
  scan_records (fst (scan_venv_base fs base))
  = match is_dir fs base, iterdir fs base with
    | Some true, Some es => fst (scan_venv_entries fs base es)
    | _, _ => []
    end.
Proof.
  unfold scan_venv_base, try_loop.
  destruct (is_dir fs base) as [[|]|]; [|reflexivity|reflexivity].
  destruct (iterdir fs base); reflexivity.
Qed.

Lemma scan_conda_base_records (fs : FS) (base : string) :
  scan_records (fst (scan_conda_base fs base))
  = match is_dir fs base, iterdir fs base with
    | Some true, Some es => fst (scan_conda_entries fs base es)
    | _, _ => []
    end.
Proof.
  unfold scan_conda_base, try_loop.
  destruct (is_dir fs base) as [[|]|]; [|reflexivity|reflexivity].
  destruct (iterdir fs base); reflexivity.
Qed.

(** The records of [scan_venv_dirs] and of the manual Conda scan are those
    of their bases. *)
Lemma in_scan_venv_dirs (fs : FS) (e : Environment) :
  In e (scan_records (scan_venv_dirs fs)) ->
  exists base es, In base (venv_bases (home fs)) /\ is_dir fs base = Some true
    /\ iterdir fs base = Some es /\ In e (fst (scan_venv_entries fs base es)).
Proof.
  unfold scan_venv_dirs, blocking_venv_scan.
  destruct (fst (scan_bases (scan_venv_base fs) (venv_bases (home fs)))) as [l|m] eqn:Hl;
    simpl; [|intros []].
  destruct (scan_bases_returned _ _ _ Hl) as [-> _]. intros He.
  apply in_flat_map in He as [base [Hb He]].
  rewrite scan_venv_base_records in He.
  destruct (is_dir fs base) as [[|]|] eqn:Hd; [|destruct He|destruct He].
  destruct (iterdir fs base) as [es|] eqn:Hes; [|destruct He].
  exists base, es. repeat split; auto.
Qed.

Lemma in_conda_manual_scan (fs : FS) (e : Environment) :
  In e (scan_records (fst (conda_manual_scan fs))) ->
  exists base es, In base (conda_bases (home fs)) /\ is_dir fs base = Some true
    /\ iterdir fs base = Some es /\ In e (fst (scan_conda_entries fs base es)).
Proof.
  change (fst (conda_manual_scan fs))
    with (fst (scan_bases (scan_conda_base fs) (conda_bases (home fs)))).
  destruct (fst (scan_bases (scan_conda_base fs) (conda_bases (home fs)))) as [l|m] eqn:Hl;
    simpl; [|intros []].
  destruct (scan_bases_returned _ _ _ Hl) as [-> _]. intros He.
  apply in_flat_map in He as [base [Hb He]].
  rewrite scan_conda_base_records in He.
  destruct (is_dir fs base) as [[|]|] eqn:Hd; [|destruct He|destruct He].
  destruct (iterdir fs base) as [es|] eqn:Hes; [|destruct He].
  exists base, es. repeat split; auto.
Qed.

Lemma venv_entry_some (fs : FS) (base n : string) (e : Environment) :
  venv_entry fs base n = Returned (Some e) ->
  is_dir fs (path_join base n) = Some true
  /\ exists_ fs (path_join (path_join base n) "pyvenv.cfg") = Some true
  /\ name e = n /\ env_type e = venv_type base
  /\ resolve fs (path_join base n) = Some (path e).
Proof.
  unfold venv_entry.
  destruct (is_dir fs (path_join base n)) as [[|]|]; try discriminate.
  destruct (exists_ fs (path_join (path_join base n) "pyvenv.cfg")) as [[|]|]; try discriminate.
  destruct (resolve fs (path_join base n)) as [r|]; [|discriminate].
  intros H. injection H; intros <-. auto.
Qed.

Lemma conda_entry_some (fs : FS) (base n : string) (e : Environment) :
  conda_entry fs base n = Returned (Some e) ->
  is_dir fs (path_join base n) = Some true
  /\ conda_marker fs (path_join base n) = Some true
  /\ name e = n /\ env_type e = "Conda"
  /\ resolve fs (path_join base n) = Some (path e).
Proof.
  unfold conda_entry.
  destruct (is_dir fs (path_join base n)) as [[|]|]; try discriminate.
  destruct (conda_marker fs (path_join base n)) as [[|]|]; try discriminate.
  destruct (resolve fs (path_join base n)) as [r|]; [|discriminate].
  intros H. injection H; intros <-. auto.
Qed.

(** In a snapshot where directories resolve, the step of an entry whose
    checks return does not raise, and records exactly the qualifying ones. *)
Lemma venv_entry_returns (fs : FS) (base n : string) :
  fs_wf fs -> venv_checks_return fs (path_join base n) = true ->
  exists o, venv_entry fs base n = Returned o
    /\ (o <> None <-> venv_qualifies fs (path_join base n) = true).
Proof.
  intros Hwf. unfold venv_checks_return, venv_qualifies, venv_entry.
  destruct (is_dir fs (path_join base n)) as [[|]|] eqn:Hd; try discriminate.
  - destruct (exists_ fs (path_join (path_join base n) "pyvenv.cfg")) as [[|]|]; try discriminate.
    + destruct (resolve fs (path_join base n)) as [r|] eqn:Hr; [|exfalso; exact (Hwf _ Hd Hr)].
      intros _. eexists; split; [reflexivity|]. split; [reflexivity|discriminate].
    + intros _. eexists; split; [reflexivity|]. split; [contradiction|discriminate].
  - intros _. eexists; split; [reflexivity|].
    simpl. split; [contradiction|discriminate].
Qed.

Lemma conda_entry_returns (fs : FS) (base n : string) :
  fs_wf fs -> conda_checks_return fs (path_join base n) = true ->
  exists o, conda_entry fs base n = Returned o
    /\ (o <> None <-> conda_qualifies fs (path_join base n) = true).
Proof.
  intros Hwf. unfold conda_checks_return, conda_qualifies, conda_entry.
  destruct (is_dir fs (path_join base n)) as [[|]|] eqn:Hd; try discriminate.
  - destruct (conda_marker fs (path_join base n)) as [[|]|]; try discriminate.
    + destruct (resolve fs (path_join base n)) as [r|] eqn:Hr; [|exfalso; exact (Hwf _ Hd Hr)].
      intros _. eexists; split; [reflexivity|]. split; [reflexivity|discriminate].
    + intros _. eexists; split; [reflexivity|]. split; [contradiction|discriminate].
  - intros _. eexists; split; [reflexivity|].
    simpl. split; [contradiction|discriminate].
Qed.

(** The names recorded by a loop whose steps all return. *)
Lemma run_loop_names (step : string -> outcome (option Environment)) (q : string -> bool)
    (es : list string) :
  (forall n, In n es -> exists o, step n = Returned o /\ (o <> None <-> q n = true)
                                  /\ forall e, o = Some e -> name e = n) ->
  map name (fst (run_loop step es)) = filter q es /\ snd (run_loop step es) = None.
Proof.
  intros H. rewrite run_loop_total by (intros n Hn; destruct (H n Hn) as [o [Ho _]]; now exists o).
  simpl. split; [|reflexivity].
  induction es as [|n es IH]; simpl; [reflexivity|].
  destruct (H n (or_introl eq_refl)) as [o [Ho [Hq Hname]]]. rewrite Ho.
  rewrite map_app, IH by (intros m Hm; apply H; now right).
  destruct o as [e|].
  - assert (Hqn : q n = true) by (apply Hq; discriminate). rewrite Hqn.
    simpl. now rewrite (Hname e eq_refl).
  - destruct (q n) eqn:Hqn; [|reflexivity].
    exfalso. now apply (proj2 Hq).
Qed.

(** ** Strings *)

Lemma string_app_assoc (a b c : string) : ((a ++ b) ++ c) = (a ++ (b ++ c)).
Proof. induction a as [|x a IH]; simpl; [reflexivity|now rewrite IH]. Qed.

Lemma prefix_refl (s : string) : String.prefix s s = true.
Proof.
  induction s as [|c s IH]; simpl; [reflexivity|].
  destruct (ascii_dec c c); [exact IH|contradiction].
Qed.

Lemma prefix_app (n s y : string) : String.prefix n s = true -> String.prefix n (s ++ y) = true.
Proof.
  revert s; induction n as [|c n IH]; intros s H; [now destruct (s ++ y)|].
  destruct s as [|d s]; simpl in *; [discriminate|].
  destruct (ascii_dec c d); [now apply IH|discriminate].
Qed.

Lemma contains_self (n : string) : contains n n = true.
Proof.
  pose proof (prefix_refl n) as H.
  destruct n as [|c s]; [reflexivity|]. cbn [contains]. now rewrite H.
Qed.

Lemma contains_app_l (n x s : string) : contains n s = true -> contains n (x ++ s) = true.
Proof.
  induction x as [|c x IH]; [auto|]. intros H. simpl append.
  cbn [contains]. apply orb_true_iff. right. now apply IH.
Qed.

Lemma contains_app_r (n s y : string) : contains n s = true -> contains n (s ++ y) = true.
Proof.
  induction s as [|c s IH]; intros H.
  - destruct n; [destruct y; reflexivity|discriminate].
  - simpl in H |- *. apply orb_true_iff in H as [H|H].
    + apply orb_true_iff. left. exact (prefix_app _ (String c s) y H).
    + apply orb_true_iff. right. now apply IH.
Qed.

Lemma path_join_suffix (a b : string) : exists x, path_join a b = x ++ b.
Proof.
  unfold path_join. destruct (String.eqb a ""); [now exists ""|].
  destruct (ends_with_slash a); [now exists a|].
  exists (a ++ "/"). now rewrite string_app_assoc.
Qed.

Lemma path_join_prefix (a b : string) : exists y, path_join a b = a ++ y.
Proof.
  unfold path_join. destruct (String.eqb a "") eqn:E.
  - apply String.eqb_eq in E; subst a. now exists b.
  - destruct (ends_with_slash a); [now exists b|now exists ("/" ++ b)].
Qed.

Lemma contains_path_join_r (n a b : string) : contains n b = true -> contains n (path_join a b) = true.
Proof. intros H. destruct (path_join_suffix a b) as [x ->]. now apply contains_app_l. Qed.

Lemma contains_path_join_l (n a b : string) : contains n a = true -> contains n (path_join a b) = true.
Proof. intros H. destruct (path_join_prefix a b) as [y ->]. now apply contains_app_r. Qed.

Lemma prefix_split (n u v : string) (c : ascii) :
  String.prefix n (u ++ String c v) = true ->
  String.prefix n u = true \/ exists i, String.get i n = Some c.
Proof.
  revert n; induction u as [|x u IH]; intros n H.
  - destruct n as [|d n]; [now left|]. right. exists 0%nat. simpl in H.
    destruct (ascii_dec d c); [now subst|discriminate].
  - destruct n as [|d n]; [now left|]. simpl in H |- *.
    destruct (ascii_dec d x); [|discriminate].
    destruct (IH n H) as [H'|[i Hi]]; [now left|right; now exists (S i)].
Qed.

(** A match that would straddle [a] and [String c b] contains [c]. *)
Lemma contains_app_nochar (n a b : string) (c : ascii) :
  (forall i, String.get i n <> Some c) ->
  contains n (a ++ String c b) = true -> contains n a = true \/ contains n (String c b) = true.
Proof.
  intros Hc. induction a as [|x a IH]; intros H; [now right|].
  change (String x a ++ String c b) with (String x (a ++ String c b)) in H.
  cbn [contains] in H |- *. apply orb_true_iff in H as [H|H].
  - change (String x (a ++ String c b)) with (String x a ++ String c b) in H.
    destruct (prefix_split n (String x a) b c H) as [H'|[i Hi]];
      [left; now rewrite H'|exfalso; exact (Hc i Hi)].
  - destruct (IH H) as [H'|H']; [left; now rewrite H', orb_true_r|now right].
Qed.

Lemma contains_virtualenvs (n h : string) :
  n <> "" -> (forall i, String.get i n <> Some "."%char) ->
  (forall i, String.get i n <> Some "/"%char) ->
  contains n ".virtualenvs" = false -> contains n "/.virtualenvs" = false ->
  contains n (path_join h ".virtualenvs") = contains n h.
Proof.
  intros Hn Hdot Hsl H1 H2. unfold path_join.
  destruct (String.eqb h "") eqn:E.
  - apply String.eqb_eq in E; subst h. rewrite H1. destruct n as [|x n]; [congruence|reflexivity].
  - destruct (contains n h) eqn:C.
    + destruct (ends_with_slash h); [now apply contains_app_r|].
      now apply contains_app_r.
    + destruct (ends_with_slash h).
      * destruct (contains n (h ++ ".virtualenvs")) eqn:C'; [|reflexivity].
        destruct (contains_app_nochar n h "virtualenvs" "." Hdot C') as [H|H]; congruence.
      * destruct (contains n (h ++ "/" ++ ".virtualenvs")) eqn:C'; [|reflexivity].
        destruct (contains_app_nochar n h ".virtualenvs" "/" Hsl C') as [H|H]; congruence.
Qed.

(** The type of [<home>/.virtualenvs] is decided by the home path. *)
Lemma venv_type_virtualenvs (h : string) :
  venv_type (path_join h ".virtualenvs")
  = if contains "pypoetry" h then "Poetry" else if contains "local" h then "Pipenv" else "venv".
Proof.
  unfold venv_type.
  rewrite (contains_virtualenvs "pypoetry" h), (contains_virtualenvs "local" h);
    try reflexivity; try discriminate;
    intros i; do 8 (destruct i as [|i]; [simpl; discriminate|]); simpl; now destruct i.
Qed.

Lemma cli_records_strings (items : list json_item) :
  fst (cli_records items) = map (fun p => mkEnvironment (path_name p) "Conda" p) (json_strings items).
Proof.
  unfold cli_records.
  induction items as [|[p|] items IH]; simpl; [reflexivity| |reflexivity].
  unfold cons_record. simpl. now rewrite IH.
Qed.

(** ** The claims *)

(** C1 (counterexample): two scanners report the resolved path
    [/home/u/proj/.venv]; the list returned by [scan_all_environments] holds
    it twice. *)
Lemma scan_all_environments_keeps_duplicates :
  fst (scan_all_environments fs_dup)
  = [mkEnvironment "proj" "venv" "/home/u/proj/.venv";
     mkEnvironment "proj" "venv (local)" "/home/u/proj/.venv"]
  /\ ~ NoDup (map path (fst (scan_all_environments fs_dup))).
Proof.
  assert (H : fst (scan_all_environments fs_dup)
              = [mkEnvironment "proj" "venv" "/home/u/proj/.venv";
                 mkEnvironment "proj" "venv (local)" "/home/u/proj/.venv"])
    by (vm_compute; reflexivity).
  split; [exact H|]. rewrite H. simpl. intros Hnd.
  inversion Hnd as [|? ? Hnin _]. apply Hnin. now left.
Qed.

(** C1 (amended): [scan_all_environments] returns the concatenation of the
    scanners' records without deduplication; its caller
    [refresh_environments] deduplicates by [path]: the list it keeps has
    exactly one Environment per path of the scan result, and that
    Environment is the last one with that path (last-seen wins). *)
Theorem refresh_environments_dedup_by_path (fs : FS) :
  fst (scan_all_environments fs)
  = (scan_records (scan_venv_dirs fs) ++ scan_records (scan_conda_envs fs)
     ++ scan_records (scan_current_dir_venv fs))%list
  /\ NoDup (map path (refresh_envs fs))
  /\ (forall p, In p (map path (fst (scan_all_environments fs)))
                <-> In p (map path (refresh_envs fs)))
  /\ (forall e, In e (refresh_envs fs) ->
        exists l1 l2, fst (scan_all_environments fs) = (l1 ++ e :: l2)%list
                      /\ forall e', In e' l2 -> path e' <> path e).
Proof.
  split.
  - unfold scan_all_environments. now rewrite scan_all_with_eq.
  - exact (dedup_by_path_props (fst (scan_all_environments fs))).
Qed.

(** C8: [scan_all_environments] always returns (its result is a plain list,
    with the lines it printed); whatever each scanner does, the list is the
    records of the scanners that returned, in order, and one line
    ["Error in scanning: ..."] is printed per scanner that raised. *)
Theorem scan_all_environments_contains_failures
    (s1 s2 s3 : FS -> outcome (list Environment)) (fs : FS) :
  fst (scan_all_with s1 s2 s3 fs)
  = (scan_records (s1 fs) ++ scan_records (s2 fs) ++ scan_records (s3 fs))%list
  /\ snd (scan_all_with s1 s2 s3 fs)
  = (scan_failure_logs (s1 fs) ++ scan_failure_logs (s2 fs) ++ scan_failure_logs (s3 fs))%list.
Proof. rewrite scan_all_with_eq. now split. Qed.

(** C2 (code bug): [is_current_env] compares the resolved strings with
    [startswith], so the nonexistent [/home/u/venv], which is not an
    ancestor of the interpreter [/home/u/venv2/bin/python], is reported as
    the current environment. *)
Theorem is_current_env_sibling_prefix :
  is_current_env fs_venv2 "/home/u/venv" = true
  /\ is_ancestor_path "/home/u/venv" "/home/u/venv2/bin/python" = false
  /\ exists_ fs_venv2 "/home/u/venv" = Some false.
Proof. vm_compute. auto. Qed.

(** The other half of the guard's contract: a failed resolution yields
    [false]. *)
Lemma is_current_env_resolve_fails (fs : FS) (p : string) :
  resolve fs p = None -> is_current_env fs p = false.
Proof.
  intros Hr. unfold is_current_env.
  destruct (resolve fs (executable fs)); [now rewrite Hr | reflexivity].
Qed.

(** C3: deleting the environment in use is refused with the in-use message,
    the world unchanged and no removal run (the result does not depend on
    the removal operations). *)
Theorem delete_environment_in_use
    (rm cr : FS -> string -> FS * option string) (fs : FS) (env : Environment) :
  is_current_env fs (path env) = true ->
  delete_environment rm cr fs env = (fs, (false, msg_in_use)).
Proof. intros H. unfold delete_environment. now rewrite H. Qed.

Lemma delete_environment_in_use_witness :
  is_current_env fs_conda_base (path env_conda_base) = true
  /\ delete_environment rmtree_ok rmtree_ok fs_conda_base env_conda_base
     = (fs_conda_base, (false, msg_in_use)).
Proof.
  split; [vm_compute; reflexivity|].
  apply delete_environment_in_use. vm_compute. reflexivity.
Defined.

(** C4 (counterexample): the Conda base environment in use is refused with
    the in-use message, not the base-protection message. *)
Lemma delete_conda_base_in_use_message :
  snd (delete_environment rmtree_ok rmtree_ok fs_conda_base env_conda_base)
  <> (false, msg_conda_base).
Proof. vm_compute. intros H. discriminate H. Qed.

(** C4 (amended): a Conda environment whose name lowercases to ["base"] is
    refused with the world unchanged and no removal run; the message is the
    base-protection one, or the in-use one when it is the environment in
    use. *)
Theorem delete_environment_conda_base
    (rm cr : FS -> string -> FS * option string) (fs : FS) (env : Environment) :
  env_type env = "Conda" -> lower (name env) = "base" ->
  delete_environment rm cr fs env
  = (fs, (false, if is_current_env fs (path env) then msg_in_use else msg_conda_base)).
Proof.
  intros Ht Hn. unfold delete_environment.
  destruct (is_current_env fs (path env)); [reflexivity|].
  now rewrite Ht, Hn.
Qed.

Lemma delete_environment_conda_base_witness :
  env_type env_conda_BASE = "Conda" /\ lower (name env_conda_BASE) = "base"
  /\ delete_environment rmtree_ok rmtree_ok (fs_conda_foo None (CondaRunFailed "CalledProcessError")) env_conda_BASE
     = (fs_conda_foo None (CondaRunFailed "CalledProcessError"), (false, msg_conda_base)).
Proof.
  split; [reflexivity|]. split; [reflexivity|].
  exact (delete_environment_conda_base rmtree_ok rmtree_ok
           (fs_conda_foo None (CondaRunFailed "CalledProcessError")) env_conda_BASE eq_refl eq_refl).
Defined.

(** C10 (counterexample): a non-Conda environment named [base] that is in
    use is not handed to [shutil.rmtree]. *)
Lemma delete_venv_base_in_use_not_removed :
  delete_environment rmtree_ok rmtree_ok fs_venv_base env_venv_base
  <> blocking_rmtree_delete rmtree_ok fs_venv_base (path env_venv_base).
Proof.
  intros H. apply (f_equal (fun r => fst (snd r))) in H.
  vm_compute in H. discriminate H.
Qed.

(** C10 (amended): the base name protects only environments typed
    ["Conda"]; any other environment named [base] (any casing) that is not
    the one in use goes to [shutil.rmtree] on its path. *)
Theorem delete_environment_non_conda_base
    (rm cr : FS -> string -> FS * option string) (fs : FS) (env : Environment) :
  String.eqb (env_type env) "Conda" = false -> lower (name env) = "base" ->
  is_current_env fs (path env) = false ->
  delete_environment rm cr fs env = blocking_rmtree_delete rm fs (path env).
Proof.
  intros Ht _ Hc. unfold delete_environment. now rewrite Hc, Ht.
Qed.

Lemma delete_environment_non_conda_base_witness :
  String.eqb (env_type env_venv_BaSe) "Conda" = false
  /\ lower (name env_venv_BaSe) = "base"
  /\ is_current_env (fs_myenv "/home/u") (path env_venv_BaSe) = false
  /\ delete_environment rmtree_ok rmtree_ok (fs_myenv "/home/u") env_venv_BaSe
     = blocking_rmtree_delete rmtree_ok (fs_myenv "/home/u") (path env_venv_BaSe).
Proof.
  split; [reflexivity|]. split; [reflexivity|]. split; [vm_compute; reflexivity|].
  apply delete_environment_non_conda_base; vm_compute; reflexivity.
Defined.

(** C5 (counterexample): a record built from the Conda CLI listing carries a
    path that is not an existing directory. *)
Lemma scan_conda_envs_cli_unchecked :
  scan_conda_envs fs_conda_gone = Returned [mkEnvironment "env" "Conda" "/gone/env"]
  /\ is_dir fs_conda_gone "/gone/env" = Some false.
Proof. split; vm_compute; reflexivity. Qed.

(** C5 (amended): the venv scanner, the manual Conda scan and the
    local-project scanner record an Environment only for an entry whose
    [is_dir()] returned [True], with the resolved path of that entry; the
    CLI listing gives one record per listed path taken as it is, with no
    check (up to the first item that is not a string).  [delete_environment]
    makes no existence check of its own: past its two guards its result is
    exactly that of [shutil.rmtree] or [conda env remove] on the path. *)
Theorem scanner_records_checked_and_no_recheck (fs : FS) :
  (forall e, In e (scan_records (scan_venv_dirs fs)) ->
     exists d, is_dir fs d = Some true /\ resolve fs d = Some (path e))
  /\ (which_conda fs = None -> forall e, In e (scan_records (scan_conda_envs fs)) ->
     exists d, is_dir fs d = Some true /\ resolve fs d = Some (path e))
  /\ (forall e, In e (scan_records (scan_current_dir_venv fs)) ->
     exists d, is_dir fs d = Some true /\ resolve fs d = Some (path e))
  /\ (forall c items, which_conda fs = Some c -> conda_env_list fs = CondaJson (Some items) ->
       scan_conda_envs fs
       = Returned (map (fun p => mkEnvironment (path_name p) "Conda" p) (json_strings items)))
  /\ (forall rm cr env, is_current_env fs (path env) = false ->
       String.eqb (env_type env) "Conda" = false ->
       delete_environment rm cr fs env = blocking_rmtree_delete rm fs (path env))
  /\ (forall rm cr env, is_current_env fs (path env) = false ->
       env_type env = "Conda" -> String.eqb (lower (name env)) "base" = false ->
       delete_environment rm cr fs env = blocking_conda_delete cr fs (path env)).
Proof.
  split; [|split; [|split; [|split; [|split]]]].
  - intros e He. apply in_scan_venv_dirs in He as (base & es & _ & _ & _ & He).
    apply run_loop_origin in He as [n [_ Hn]].
    apply venv_entry_some in Hn as (Hd & _ & _ & _ & Hr).
    now exists (path_join base n).
  - intros Hw e He.
    assert (Hm : In e (scan_records (fst (conda_manual_scan fs)))).
    { unfold scan_conda_envs, blocking_conda_scan in He. now rewrite Hw in He. }
    apply in_conda_manual_scan in Hm as (base & es & _ & _ & _ & Hm).
    apply run_loop_origin in Hm as [n [_ Hn]].
    apply conda_entry_some in Hn as (Hd & _ & _ & _ & Hr).
    now exists (path_join base n).
  - intros e. unfold scan_current_dir_venv.
    destruct (cwd fs) as [c|]; [|intros []].
    destruct (is_dir fs (path_join c ".venv")) as [[|]|] eqn:Hd; try intros [].
    destruct (exists_ fs (path_join (path_join c ".venv") "pyvenv.cfg")) as [[|]|]; try intros [].
    destruct (resolve fs (path_join c ".venv")) as [r|] eqn:Hr; [|intros []].
    intros [<-|[]]. now exists (path_join c ".venv").
  - intros c items Hw Ho. unfold scan_conda_envs, blocking_conda_scan.
    rewrite Hw, Ho. simpl. now rewrite cli_records_strings.
  - intros rm cr env Hc Ht. unfold delete_environment. now rewrite Hc, Ht.
  - intros rm cr env Hc Ht Hn. unfold delete_environment. now rewrite Hc, Ht, Hn.
Qed.

Lemma scanner_records_checked_and_no_recheck_witness :
  which_conda fs_conda_gone = Some "/usr/bin/conda"
  /\ conda_env_list fs_conda_gone = CondaJson (Some [JStr "/gone/env"])
  /\ scan_conda_envs fs_conda_gone
     = Returned (map (fun p => mkEnvironment (path_name p) "Conda" p) ["/gone/env"]).
Proof.
  split; [reflexivity|]. split; [reflexivity|].
  exact (proj1 (proj2 (proj2 (proj2 (scanner_records_checked_and_no_recheck fs_conda_gone))))
           "/usr/bin/conda" [JStr "/gone/env"] eq_refl eq_refl).
Defined.




(** C7 (counterexample): with the home directory [/home/localuser], the
    entry [.virtualenvs/myenv] is typed ["Pipenv"], since the base path
    contains ["local"]; no record typed ["venv"] is returned. *)
Lemma scan_venv_dirs_local_home :
  scan_venv_dirs (fs_myenv "/home/localuser")
  = Returned [mkEnvironment "myenv" "Pipenv" "/home/localuser/.virtualenvs/myenv"]
  /\ ~ (exists e, In e (scan_records (scan_venv_dirs (fs_myenv "/home/localuser")))
                  /\ env_type e = "venv").
Proof.
  assert (H : scan_venv_dirs (fs_myenv "/home/localuser")
              = Returned [mkEnvironment "myenv" "Pipenv" "/home/localuser/.virtualenvs/myenv"])
    by (vm_compute; reflexivity).
  split; [exact H|]. rewrite H. simpl.
  intros [e [[<-|[]] He]]. discriminate He.
Qed.

(** C7 (amended): let [n] be an entry of [<home>/.virtualenvs] that is a
    directory holding [pyvenv.cfg].  Provided no [is_dir()] of the three
    bases raises, and no check of an entry listed before [n] raises,
    [scan_venv_dirs] returns an Environment named [n] with the resolved path
    of the entry.  Its type is ["Poetry"] if the base path contains
    ["pypoetry"], else ["Pipenv"] if it contains ["local"], else ["venv"];
    for this base, that is the same test on the home path. *)
Theorem scan_venv_dirs_virtualenvs_entry (fs : FS) (n : string) (pre post : list string) :
  let base := path_join (home fs) ".virtualenvs" in
  fs_wf fs ->
  Forall (fun b => is_dir fs b <> None) (venv_bases (home fs)) ->
  is_dir fs base = Some true -> iterdir fs base = Some (pre ++ n :: post)%list ->
  Forall (fun m => venv_checks_return fs (path_join base m) = true) pre ->
  is_dir fs (path_join base n) = Some true ->
  exists_ fs (path_join (path_join base n) "pyvenv.cfg") = Some true ->
  exists r, resolve fs (path_join base n) = Some r
    /\ In (mkEnvironment n (venv_type base) r) (scan_records (scan_venv_dirs fs))
    /\ venv_type base = (if contains "pypoetry" base then "Poetry"
                         else if contains "local" base then "Pipenv" else "venv")
    /\ venv_type base = (if contains "pypoetry" (home fs) then "Poetry"
                         else if contains "local" (home fs) then "Pipenv" else "venv").
Proof.
  intros base Hwf Hbases Hb Hes Hpre Hd Hx.
  destruct (resolve fs (path_join base n)) as [r|] eqn:Hr; [|exfalso; exact (Hwf _ Hd Hr)].
  exists r. split; [reflexivity|]. split; [|split; [reflexivity|apply venv_type_virtualenvs]].
  assert (Hn : venv_entry fs base n = Returned (Some (mkEnvironment n (venv_type base) r))).
  { unfold venv_entry. now rewrite Hd, Hx, Hr. }
  assert (Hin : In (mkEnvironment n (venv_type base) r)
                   (fst (scan_venv_entries fs base (pre ++ n :: post)%list))).
  { apply run_loop_found; [|exact Hn].
    intros y Hy. rewrite Forall_forall in Hpre.
    destruct (venv_entry_returns fs base y Hwf (Hpre y Hy)) as [o [Ho _]]. now exists o. }
  destruct (proj2 (scan_bases_is_dir fs (scan_venv_base fs) (venv_bases (home fs))
                     (scan_venv_base_is_dir fs)) Hbases) as [l Hl].
  unfold scan_venv_dirs, blocking_venv_scan. rewrite Hl. simpl.
  destruct (scan_bases_returned _ _ _ Hl) as [-> _].
  apply in_flat_map. exists base. split; [now left|].
  rewrite scan_venv_base_records. now rewrite Hb, Hes.
Qed.

Lemma scan_venv_dirs_virtualenvs_entry_witness :
  fs_wf (fs_myenv "/home/u")
  /\ exists r, resolve (fs_myenv "/home/u") "/home/u/.virtualenvs/myenv" = Some r
     /\ In (mkEnvironment "myenv" (venv_type "/home/u/.virtualenvs") r)
           (scan_records (scan_venv_dirs (fs_myenv "/home/u")))
     /\ venv_type "/home/u/.virtualenvs" = "venv".
Proof.
  assert (Hwf : fs_wf (fs_myenv "/home/u")) by (intros p _; discriminate).
  split; [exact Hwf|].
  assert (Hb : Forall (fun b => is_dir (fs_myenv "/home/u") b <> None) (venv_bases "/home/u"))
    by (repeat constructor; discriminate).
  destruct (scan_venv_dirs_virtualenvs_entry (fs_myenv "/home/u") "myenv" [] []
              Hwf Hb eq_refl eq_refl (Forall_nil _) eq_refl eq_refl)
    as (r & H1 & H2 & H3 & _).
  exists r. split; [exact H1|]. split; [exact H2|]. exact H3.
Defined.

(** C9 (counterexample): [/tmp/project/.venv] holds [pyvenv.cfg] but has no
    search permission: [is_dir()] of it returns [True] and
    [(potential / "pyvenv.cfg").exists()] raises [PermissionError], which
    no [try] catches; the scanner raises instead of returning a list. *)
Lemma scan_current_dir_venv_locked :
  exists_ fs_project "/tmp/project/.venv/pyvenv.cfg" = Some true
  /\ is_dir fs_venv_locked "/tmp/project/.venv" = Some true
  /\ scan_current_dir_venv fs_venv_locked = Raised "OSError".
Proof. repeat split; vm_compute; reflexivity. Qed.

(** C9 (amended): with a working directory [c], when [c/.venv] is a
    directory holding [pyvenv.cfg], [scan_current_dir_venv] returns exactly
    one Environment typed ["venv (local)"], named after [c], with the
    resolved path of [c/.venv]; when either check returns [False] it
    returns the empty list; when either check raises, the scanner raises,
    and [scan_all_environments] prints it. *)
Theorem scan_current_dir_venv_spec (fs : FS) (c : string) :
  fs_wf fs -> cwd fs = Some c ->
  (is_dir fs (path_join c ".venv") = Some true ->
   exists_ fs (path_join (path_join c ".venv") "pyvenv.cfg") = Some true ->
   exists r, resolve fs (path_join c ".venv") = Some r
     /\ scan_current_dir_venv fs = Returned [mkEnvironment (path_name c) "venv (local)" r])
  /\ (is_dir fs (path_join c ".venv") = Some false
      \/ (is_dir fs (path_join c ".venv") = Some true
          /\ exists_ fs (path_join (path_join c ".venv") "pyvenv.cfg") = Some false) ->
      scan_current_dir_venv fs = Returned [])
  /\ (is_dir fs (path_join c ".venv") = None
      \/ (is_dir fs (path_join c ".venv") = Some true
          /\ exists_ fs (path_join (path_join c ".venv") "pyvenv.cfg") = None) ->
      scan_current_dir_venv fs = Raised "OSError"
      /\ In (scan_error_log "OSError") (snd (scan_all_environments fs))).
Proof.
  intros Hwf Hc.
  assert (Hlog : scan_current_dir_venv fs = Raised "OSError" ->
                 In (scan_error_log "OSError") (snd (scan_all_environments fs))).
  { intros H. unfold scan_all_environments. rewrite scan_all_with_eq. simpl snd.
    rewrite H. apply in_or_app. right. apply in_or_app. right. now left. }
  unfold scan_current_dir_venv in *. rewrite Hc in *. split; [|split].
  - intros Hd Hx. rewrite Hd, Hx.
    destruct (resolve fs (path_join c ".venv")) as [r|] eqn:Hr;
      [|exfalso; exact (Hwf _ Hd Hr)].
    exists r. now split.
  - intros [Hd | [Hd Hx]]; rewrite Hd; [reflexivity|]. now rewrite Hx.
  - intros [Hd | [Hd Hx]]; rewrite Hd in *; [|rewrite Hx in *]; split; auto.
Qed.

Lemma scan_current_dir_venv_spec_witness :
  fs_wf fs_project /\ cwd fs_project = Some "/tmp/project"
  /\ path_name "/tmp/project" = "project"
  /\ (exists r, resolve fs_project "/tmp/project/.venv" = Some r
     /\ scan_current_dir_venv fs_project
        = Returned [mkEnvironment (path_name "/tmp/project") "venv (local)" r])
  /\ In (scan_error_log "OSError") (snd (scan_all_environments fs_venv_locked)).
Proof.
  assert (Hwf : fs_wf fs_project) by (intros p _; discriminate).
  assert (Hwf' : fs_wf fs_venv_locked) by (intros p _; discriminate).
  split; [exact Hwf|]. split; [reflexivity|]. split; [reflexivity|]. split.
  - exact (proj1 (scan_current_dir_venv_spec fs_project "/tmp/project" Hwf eq_refl)
             eq_refl eq_refl).
  - exact (proj2 (proj2 (proj2 (scan_current_dir_venv_spec fs_venv_locked "/tmp/project"
                                  Hwf' eq_refl))
                   (or_intror (conj eq_refl eq_refl)))).
Defined.

(** ** Further properties of the scanners *)

Lemma venv_entry_check_raises (fs : FS) (base n : string) :
  venv_checks_return fs (path_join base n) = false -> venv_entry fs base n = Raised "OSError".
Proof.
  unfold venv_checks_return, venv_entry.
  destruct (is_dir fs (path_join base n)) as [[|]|]; try discriminate; [|reflexivity].
  destruct (exists_ fs (path_join (path_join base n) "pyvenv.cfg")) as [[|]|];
    [discriminate|discriminate|reflexivity].
Qed.

Lemma conda_entry_check_raises (fs : FS) (base n : string) :
  conda_checks_return fs (path_join base n) = false -> conda_entry fs base n = Raised "OSError".
Proof.
  unfold conda_checks_return, conda_entry.
  destruct (is_dir fs (path_join base n)) as [[|]|]; try discriminate; [|reflexivity].
  destruct (conda_marker fs (path_join base n)) as [[|]|];
    [discriminate|discriminate|reflexivity].
Qed.

(** X1: every record of [scan_venv_dirs] comes from a listed entry of one of
    its three bases that is a directory holding [pyvenv.cfg]; it is named
    after the entry, typed by [venv_type] of its base (one of ["Poetry"],
    ["Pipenv"], ["venv"]) and carries the entry's resolved path. *)
Theorem scan_venv_dirs_record_origin (fs : FS) (e : Environment) :
  In e (scan_records (scan_venv_dirs fs)) ->
  exists base es n,
    In base (venv_bases (home fs)) /\ is_dir fs base = Some true /\ iterdir fs base = Some es
    /\ In n es /\ is_dir fs (path_join base n) = Some true
    /\ exists_ fs (path_join (path_join base n) "pyvenv.cfg") = Some true
    /\ name e = n /\ env_type e = venv_type base
    /\ In (env_type e) ["Poetry"; "Pipenv"; "venv"]
    /\ resolve fs (path_join base n) = Some (path e).
Proof.
  intros He. apply in_scan_venv_dirs in He as (base & es & Hb & Hbd & Hes & He).
  apply run_loop_origin in He as [n [Hn He]].
  apply venv_entry_some in He as (Hd & Hx & Hname & Ht & Hr).
  exists base, es, n. repeat split; auto.
  rewrite Ht. unfold venv_type.
  destruct (contains "pypoetry" base); [now left|].
  destruct (contains "local" base); [right; now left|right; right; now left].
Qed.

Lemma scan_venv_dirs_record_origin_witness :
  In env_myenv (scan_records (scan_venv_dirs (fs_myenv "/home/u")))
  /\ exists base es n,
    In base (venv_bases "/home/u") /\ iterdir (fs_myenv "/home/u") base = Some es
    /\ In n es /\ n = "myenv".
Proof.
  assert (H : In env_myenv (scan_records (scan_venv_dirs (fs_myenv "/home/u"))))
    by (vm_compute; left; reflexivity).
  split; [exact H|].
  destruct (scan_venv_dirs_record_origin (fs_myenv "/home/u") env_myenv H)
    as (base & es & n & Hb & _ & Hes & Hn & _ & _ & Hname & _).
  exists base, es, n. simpl in Hname. repeat split; auto.
Defined.

(** X2: in a snapshot where directories resolve, when no check of a listed
    entry raises, the names recorded from a base that is a listable
    directory are exactly its listed entries that are directories holding
    [pyvenv.cfg], in listing order, and nothing is printed for it. *)
Theorem scan_venv_base_names (fs : FS) (base : string) (es : list string) :
  fs_wf fs -> is_dir fs base = Some true -> iterdir fs base = Some es ->
  Forall (fun n => venv_checks_return fs (path_join base n) = true) es ->
  map name (scan_records (fst (scan_venv_base fs base)))
  = filter (fun n => venv_qualifies fs (path_join base n)) es
  /\ snd (scan_venv_base fs base) = [].
Proof.
  intros Hwf Hb Hes Hall. rewrite Forall_forall in Hall.
  destruct (run_loop_names (venv_entry fs base) (fun n => venv_qualifies fs (path_join base n)) es)
    as [H1 H2].
  { intros n Hn. destruct (venv_entry_returns fs base n Hwf (Hall n Hn)) as [o [Ho Hq]].
    exists o. split; [exact Ho|]. split; [exact Hq|].
    intros e ->. apply venv_entry_some in Ho. tauto. }
  unfold scan_venv_base, try_loop. rewrite Hb, Hes. cbv zeta.
  unfold scan_venv_entries. rewrite H2. cbn [fst snd scan_records].
  split; [exact H1|reflexivity].
Qed.

Lemma scan_venv_base_names_witness :
  fs_wf (fs_myenv "/home/u")
  /\ map name (scan_records (fst (scan_venv_base (fs_myenv "/home/u") "/home/u/.virtualenvs")))
     = ["myenv"].
Proof.
  assert (Hwf : fs_wf (fs_myenv "/home/u")) by (intros p _; discriminate).
  split; [exact Hwf|].
  exact (proj1 (scan_venv_base_names (fs_myenv "/home/u") "/home/u/.virtualenvs" ["myenv"]
           Hwf eq_refl eq_refl (Forall_cons "myenv" eq_refl (Forall_nil _)))).
Defined.

(** X3: inside one base, an entry that passes the check but whose
    [resolve()] raises ends the scan of that base: the entries listed after
    it are not recorded, and the loop ends on an exception. *)
Theorem scan_venv_entries_resolve_error (fs : FS) (base n : string) (pre post : list string) :
  is_dir fs (path_join base n) = Some true ->
  exists_ fs (path_join (path_join base n) "pyvenv.cfg") = Some true ->
  resolve fs (path_join base n) = None ->
  fst (scan_venv_entries fs base (pre ++ n :: post)%list) = fst (scan_venv_entries fs base pre)
  /\ snd (scan_venv_entries fs base (pre ++ n :: post)%list) <> None.
Proof.
  intros Hd Hx Hr. apply (run_loop_stop _ _ _ _ "OSError").
  unfold venv_entry. now rewrite Hd, Hx, Hr.
Qed.

Lemma scan_venv_entries_resolve_error_witness :
  fst (scan_venv_entries fs_broken "/home/u/.virtualenvs" ["a"; "broken"; "z"])
  = fst (scan_venv_entries fs_broken "/home/u/.virtualenvs" ["a"])
  /\ map name (fst (scan_venv_entries fs_broken "/home/u/.virtualenvs" ["a"])) = ["a"].
Proof.
  split; [|vm_compute; reflexivity].
  exact (proj1 (scan_venv_entries_resolve_error fs_broken "/home/u/.virtualenvs" "broken" ["a"] ["z"]
           eq_refl eq_refl eq_refl)).
Defined.

(** X4: whatever the home directory, the Poetry cache base is classified
    ["Poetry"] and the local-share base is never classified ["venv"]. *)
Theorem venv_bases_classification (h : string) :
  venv_type (nth 1 (venv_bases h) "") = "Poetry"
  /\ venv_type (nth 2 (venv_bases h) "") <> "venv".
Proof.
  simpl. unfold venv_type. split.
  - rewrite contains_path_join_l; [reflexivity|].
    apply contains_path_join_r, contains_self.
  - rewrite (contains_path_join_l "local"); [destruct (contains "pypoetry" _); discriminate|].
    apply contains_path_join_l, contains_path_join_r.
    change ".local" with ("." ++ "local"). apply contains_app_l, contains_self.
Qed.


(** X5: without a [conda] executable, every record of [scan_conda_envs]
    comes from a listed entry of one of the three Conda directories that is
    a directory with [conda-meta/] or [bin/python]; it is named after the
    entry, typed ["Conda"], and carries the entry's resolved path. *)
Theorem scan_conda_envs_manual_record_origin (fs : FS) (e : Environment) :
  which_conda fs = None ->
  In e (scan_records (scan_conda_envs fs)) ->
  exists base es n,
    In base (conda_bases (home fs)) /\ is_dir fs base = Some true /\ iterdir fs base = Some es
    /\ In n es /\ is_dir fs (path_join base n) = Some true
    /\ conda_marker fs (path_join base n) = Some true
    /\ name e = n /\ env_type e = "Conda"
    /\ resolve fs (path_join base n) = Some (path e).
Proof.
  intros Hw He.
  assert (Hm : In e (scan_records (fst (conda_manual_scan fs)))).
  { unfold scan_conda_envs, blocking_conda_scan in He. now rewrite Hw in He. }
  apply in_conda_manual_scan in Hm as (base & es & Hb & Hbd & Hes & Hm).
  apply run_loop_origin in Hm as [n [Hn Hm]].
  apply conda_entry_some in Hm as (Hd & Hx & Hname & Ht & Hr).
  exists base, es, n. repeat split; auto.
Qed.

Lemma scan_conda_envs_manual_record_origin_witness :
  which_conda (fs_conda_foo None (CondaRunFailed "CalledProcessError")) = None
  /\ exists base es n,
    In base (conda_bases "/home/u")
    /\ iterdir (fs_conda_foo None (CondaRunFailed "CalledProcessError")) base = Some es
    /\ In n es /\ n = "foo".
Proof.
  split; [reflexivity|].
  destruct (scan_conda_envs_manual_record_origin (fs_conda_foo None (CondaRunFailed "CalledProcessError"))
              (mkEnvironment "foo" "Conda" "/home/u/miniconda3/envs/foo") eq_refl
              (or_introl eq_refl))
    as (base & es & n & Hb & _ & Hes & Hn & _ & _ & Hname & _).
  exists base, es, n. simpl in Hname. repeat split; auto.
Defined.

(** X6: in a snapshot where directories resolve, when no check of a listed
    entry raises, the names recorded from a Conda directory that is a
    listable directory are exactly its listed entries that are directories
    with [conda-meta/] or [bin/python], in listing order, and nothing is
    printed for it. *)
Theorem scan_conda_base_names (fs : FS) (base : string) (es : list string) :
  fs_wf fs -> is_dir fs base = Some true -> iterdir fs base = Some es ->
  Forall (fun n => conda_checks_return fs (path_join base n) = true) es ->
  map name (scan_records (fst (scan_conda_base fs base)))
  = filter (fun n => conda_qualifies fs (path_join base n)) es
  /\ snd (scan_conda_base fs base) = [].
Proof.
  intros Hwf Hb Hes Hall. rewrite Forall_forall in Hall.
  destruct (run_loop_names (conda_entry fs base) (fun n => conda_qualifies fs (path_join base n)) es)
    as [H1 H2].
  { intros n Hn. destruct (conda_entry_returns fs base n Hwf (Hall n Hn)) as [o [Ho Hq]].
    exists o. split; [exact Ho|]. split; [exact Hq|].
    intros e ->. apply conda_entry_some in Ho. tauto. }
  unfold scan_conda_base, try_loop. rewrite Hb, Hes. cbv zeta.
  unfold scan_conda_entries. rewrite H2. cbn [fst snd scan_records].
  split; [exact H1|reflexivity].
Qed.

Lemma scan_conda_base_names_witness :
  fs_wf (fs_conda_foo None (CondaRunFailed "CalledProcessError"))
  /\ map name (scan_records (fst (scan_conda_base (fs_conda_foo None (CondaRunFailed "CalledProcessError"))
                                    "/home/u/miniconda3/envs")))
     = ["foo"].
Proof.
  assert (Hwf : fs_wf (fs_conda_foo None (CondaRunFailed "CalledProcessError")))
    by (intros p _; discriminate).
  split; [exact Hwf|].
  exact (proj1 (scan_conda_base_names _ "/home/u/miniconda3/envs" ["foo"] Hwf eq_refl eq_refl
                  (Forall_cons "foo" eq_refl (Forall_nil _)))).
Defined.

Lemma json_strings_map (ps : list string) : json_strings (map JStr ps) = ps.
Proof. induction ps as [|p ps IH]; simpl; [reflexivity|now rewrite IH]. Qed.

Lemma cli_records_map_ok (ps : list string) : snd (cli_records (map JStr ps)) = None.
Proof.
  unfold cli_records. induction ps as [|p ps IH]; simpl; [reflexivity|].
  unfold cons_record. simpl. exact IH.
Qed.

(** X7: when the Conda CLI runs and its JSON lists the strings [ps] under
    ["envs"], [scan_conda_envs] returns one ["Conda"] record per listed
    path, in the CLI's order, duplicates kept, each path taken verbatim and
    named after its last component, and nothing is printed. *)
Theorem scan_conda_envs_cli_listing (fs : FS) (c : string) (ps : list string) :
  which_conda fs = Some c -> conda_env_list fs = CondaJson (Some (map JStr ps)) ->
  exists l, scan_conda_envs fs = Returned l
    /\ map path l = ps /\ map name l = map path_name ps
    /\ Forall (fun e => env_type e = "Conda") l
    /\ snd (blocking_conda_scan fs) = [].
Proof.
  intros Hw Ho. unfold scan_conda_envs, blocking_conda_scan. rewrite Hw, Ho. simpl.
  eexists; split; [reflexivity|].
  rewrite cli_records_strings, json_strings_map, cli_records_map_ok, !map_map.
  split; [|split; [|split]].
  - apply map_id.
  - reflexivity.
  - apply Forall_forall. intros e He. apply in_map_iff in He as [p [<- _]]. reflexivity.
  - reflexivity.
Qed.

Lemma scan_conda_envs_cli_listing_witness :
  exists l, scan_conda_envs fs_conda_base = Returned l
    /\ map path l = ["/opt/conda"] /\ map name l = ["conda"].
Proof.
  destruct (scan_conda_envs_cli_listing fs_conda_base "/opt/conda/bin/conda" ["/opt/conda"]
              eq_refl eq_refl) as [l (Hl & Hp & Hn & _)].
  exists l. repeat split; auto.
Defined.

(** X16: in a base of [scan_venv_dirs], an entry whose [is_dir()] or
    [(entry / "pyvenv.cfg").exists()] raises ends the scan of that base:
    only the records of the entries listed before it are kept, and one
    ["Error scanning <base>: ..."] line is printed. *)
Theorem scan_venv_base_check_error (fs : FS) (base n : string) (pre post : list string) :
  fs_wf fs -> is_dir fs base = Some true -> iterdir fs base = Some (pre ++ n :: post)%list ->
  Forall (fun m => venv_checks_return fs (path_join base m) = true) pre ->
  venv_checks_return fs (path_join base n) = false ->
  scan_records (fst (scan_venv_base fs base)) = fst (scan_venv_entries fs base pre)
  /\ snd (scan_venv_base fs base) = [base_error_log base "OSError"].
Proof.
  intros Hwf Hb Hes Hpre Hn. rewrite Forall_forall in Hpre.
  assert (Hstep := venv_entry_check_raises fs base n Hn).
  unfold scan_venv_base, try_loop. rewrite Hb, Hes. cbv zeta. cbn [fst snd scan_records].
  unfold scan_venv_entries. split.
  - exact (proj1 (run_loop_stop _ pre n post _ Hstep)).
  - assert (Hp : run_loop (venv_entry fs base) pre = (fst (run_loop (venv_entry fs base) pre), None)).
    { rewrite run_loop_total; [reflexivity|].
      intros y Hy. destruct (venv_entry_returns fs base y Hwf (Hpre y Hy)) as [o [Ho _]].
      now exists o. }
    clear Hes. induction pre as [|y pre IH]; simpl.
    + now rewrite Hstep.
    + destruct (venv_entry_returns fs base y Hwf (Hpre y (or_introl eq_refl))) as [o [Ho _]].
      rewrite Ho. destruct o as [e|].
      * unfold cons_record. simpl. apply IH.
        -- intros z Hz. apply Hpre. now right.
        -- simpl in Hp. rewrite Ho in Hp. injection Hp; intros H. unfold cons_record in H.
           simpl in H. now rewrite <- H, <- surjective_pairing.
      * apply IH; [intros z Hz; apply Hpre; now right|].
        simpl in Hp. now rewrite Ho in Hp.
Qed.

Lemma scan_venv_base_check_error_witness :
  venv_checks_return fs_locked_entry "/home/u/.virtualenvs/aaa" = false
  /\ scan_records (fst (scan_venv_base fs_locked_entry "/home/u/.virtualenvs")) = []
  /\ snd (scan_venv_base fs_locked_entry "/home/u/.virtualenvs")
     = [base_error_log "/home/u/.virtualenvs" "OSError"].
Proof.
  assert (Hwf : fs_wf fs_locked_entry) by (intros p _; discriminate).
  split; [vm_compute; reflexivity|].
  exact (scan_venv_base_check_error fs_locked_entry "/home/u/.virtualenvs" "aaa" [] ["myenv"]
           Hwf eq_refl eq_refl (Forall_nil _) eq_refl).
Defined.

(** X17: the same for a directory of the manual Conda scan: an entry whose
    [is_dir()], [(env_dir / "conda-meta").is_dir()] or
    [(env_dir / "bin" / "python").exists()] raises ends the scan of that
    directory, with one ["Error scanning <base>: ..."] line printed. *)
Theorem scan_conda_base_check_error (fs : FS) (base n : string) (pre post : list string) :
  fs_wf fs -> is_dir fs base = Some true -> iterdir fs base = Some (pre ++ n :: post)%list ->
  Forall (fun m => conda_checks_return fs (path_join base m) = true) pre ->
  conda_checks_return fs (path_join base n) = false ->
  scan_records (fst (scan_conda_base fs base)) = fst (scan_conda_entries fs base pre)
  /\ snd (scan_conda_base fs base) = [base_error_log base "OSError"].
Proof.
  intros Hwf Hb Hes Hpre Hn. rewrite Forall_forall in Hpre.
  assert (Hstep := conda_entry_check_raises fs base n Hn).
  unfold scan_conda_base, try_loop. rewrite Hb, Hes. cbv zeta. cbn [fst snd scan_records].
  unfold scan_conda_entries. split.
  - exact (proj1 (run_loop_stop _ pre n post _ Hstep)).
  - clear Hes. induction pre as [|y pre IH]; simpl.
    + now rewrite Hstep.
    + destruct (conda_entry_returns fs base y Hwf (Hpre y (or_introl eq_refl))) as [o [Ho _]].
      rewrite Ho. destruct o as [e|].
      * unfold cons_record. simpl. apply IH. intros z Hz. apply Hpre. now right.
      * apply IH. intros z Hz. apply Hpre. now right.
Qed.

Lemma scan_conda_base_check_error_witness :
  conda_checks_return fs_conda_locked_entry "/home/u/miniconda3/envs/aaa" = false
  /\ scan_records (fst (scan_conda_base fs_conda_locked_entry "/home/u/miniconda3/envs")) = []
  /\ snd (scan_conda_base fs_conda_locked_entry "/home/u/miniconda3/envs")
     = [base_error_log "/home/u/miniconda3/envs" "OSError"].
Proof.
  assert (Hwf : fs_wf fs_conda_locked_entry) by (intros p _; discriminate).
  split; [vm_compute; reflexivity|].
  exact (scan_conda_base_check_error fs_conda_locked_entry "/home/u/miniconda3/envs" "aaa" [] ["foo"]
           Hwf eq_refl eq_refl (Forall_nil _) eq_refl).
Defined.


(** ** Further properties of the guard and of deletion *)

Lemma prefix_app_l (a b p : string) : String.prefix (a ++ b) p = true -> String.prefix a p = true.
Proof.
  revert p; induction a as [|c a IH]; intros p H; [now destruct p|].
  destruct p as [|d p]; simpl in *; [discriminate|].
  destruct (ascii_dec c d); [now apply (IH p)|discriminate].
Qed.

(** X8: if the resolved environment path is the resolved interpreter path
    [Path(sys.executable).resolve()] or one of its directories (the root
    included), [is_current_env] is true.  It looks at the resolved
    interpreter only: an interpreter reached through a symbolic link is
    located where the link points. *)
Theorem is_current_env_ancestor (fs : FS) (p a x : string) :
  resolve fs (executable fs) = Some x -> resolve fs p = Some a ->
  is_ancestor_path a x = true -> is_current_env fs p = true.
Proof.
  intros Hx Ha H. unfold is_current_env, startswith. rewrite Hx, Ha.
  unfold is_ancestor_path in H. apply orb_true_iff in H as [H|H].
  - apply String.eqb_eq in H; subst. apply prefix_refl.
  - destruct (ends_with_slash a); [exact H|now apply (prefix_app_l a "/")].
Qed.

Lemma is_current_env_ancestor_witness :
  is_ancestor_path "/opt/conda" "/opt/conda/bin/python" = true
  /\ is_current_env fs_conda_base "/opt/conda" = true
  /\ is_ancestor_path "/" "/opt/conda/bin/python" = true
  /\ is_current_env fs_conda_base "/" = true.
Proof.
  split; [reflexivity|]. split.
  - exact (is_current_env_ancestor fs_conda_base "/opt/conda" "/opt/conda" "/opt/conda/bin/python"
             eq_refl eq_refl eq_refl).
  - split; [reflexivity|].
    exact (is_current_env_ancestor fs_conda_base "/" "/" "/opt/conda/bin/python"
             eq_refl eq_refl eq_refl).
Defined.

(** X9: [delete_environment] reports success only when the removal it ran
    reported no error: [conda env remove] for a ["Conda"] environment,
    [shutil.rmtree] otherwise; the world afterwards is that removal's. *)
Theorem delete_environment_success_iff_removed
    (rm cr : FS -> string -> FS * option string) (fs : FS) (env : Environment) :
  fst (snd (delete_environment rm cr fs env)) = true ->
  is_current_env fs (path env) = false
  /\ ((env_type env = "Conda" /\ lower (name env) <> "base"
       /\ snd (cr fs (path env)) = None /\ fst (delete_environment rm cr fs env) = fst (cr fs (path env)))
      \/ (env_type env <> "Conda"
       /\ snd (rm fs (path env)) = None /\ fst (delete_environment rm cr fs env) = fst (rm fs (path env)))).
Proof.
  unfold delete_environment.
  destruct (is_current_env fs (path env)); [discriminate|]. intros Hs. split; [reflexivity|].
  destruct (String.eqb (env_type env) "Conda") eqn:Ht.
  - apply String.eqb_eq in Ht.
    destruct (String.eqb (lower (name env)) "base") eqn:Hn; [discriminate|].
    apply String.eqb_neq in Hn. left. repeat split; auto.
    + unfold blocking_conda_delete in Hs. destruct (cr fs (path env)) as [fs' [err|]]; [discriminate|reflexivity].
    + unfold blocking_conda_delete. destruct (cr fs (path env)) as [fs' [err|]]; reflexivity.
  - apply String.eqb_neq in Ht. right. repeat split; auto.
    + unfold blocking_rmtree_delete in Hs. destruct (rm fs (path env)) as [fs' [err|]]; [discriminate|reflexivity].
    + unfold blocking_rmtree_delete. destruct (rm fs (path env)) as [fs' [err|]]; reflexivity.
Qed.

Lemma delete_environment_success_iff_removed_witness :
  fst (snd (delete_environment rmtree_ok rmtree_ok (fs_myenv "/home/u") env_myenv)) = true
  /\ is_current_env (fs_myenv "/home/u") (path env_myenv) = false.
Proof.
  assert (H : fst (snd (delete_environment rmtree_ok rmtree_ok (fs_myenv "/home/u") env_myenv)) = true)
    by (vm_compute; reflexivity).
  split; [exact H|].
  exact (proj1 (delete_environment_success_iff_removed rmtree_ok rmtree_ok _ _ H)).
Defined.

(** X10: [delete_environment] changes the world only through one removal:
    afterwards the world is the one before, or the result of
    [conda env remove] on the path for a ["Conda"] environment, or the
    result of [shutil.rmtree] on the path for any other; a ["Conda"]
    environment is never passed to [shutil.rmtree]. *)
Theorem delete_environment_world (rm cr : FS -> string -> FS * option string)
    (fs : FS) (env : Environment) :
  fst (delete_environment rm cr fs env) = fs
  \/ (env_type env = "Conda" /\ fst (delete_environment rm cr fs env) = fst (cr fs (path env)))
  \/ (env_type env <> "Conda" /\ fst (delete_environment rm cr fs env) = fst (rm fs (path env))).
Proof.
  unfold delete_environment.
  destruct (is_current_env fs (path env)); [now left|].
  destruct (String.eqb (env_type env) "Conda") eqn:Ht.
  - apply String.eqb_eq in Ht.
    destruct (String.eqb (lower (name env)) "base"); [now left|].
    right; left. split; [exact Ht|].
    unfold blocking_conda_delete. destruct (cr fs (path env)) as [fs' [err|]]; reflexivity.
  - apply String.eqb_neq in Ht. right; right. split; [exact Ht|].
    unfold blocking_rmtree_delete. destruct (rm fs (path env)) as [fs' [err|]]; reflexivity.
Qed.

(** ** Further properties of the deduplication and of the window *)

Lemma dedup_by_path_keys (envs : list Environment) :
  map path (dedup_by_path envs) = map fst (dedup_dict envs).
Proof.
  destruct (dedup_dict_inv envs) as [_ [_ Hlast]].
  unfold dedup_by_path. fold (dedup_dict envs). rewrite map_map.
  apply map_ext_in. intros [k v] Hin. simpl. symmetry. now apply (Hlast k v).
Qed.

Lemma keys_dict_set (k : string) (v : Environment) (d : list (string * Environment)) :
  map fst (dict_set k v d)
  = if in_dec string_dec k (map fst d) then map fst d else (map fst d ++ [k])%list.
Proof.
  induction d as [|[k0 v0] d IH]; simpl.
  - reflexivity.
  - destruct (String.eqb k k0) eqn:E.
    + apply String.eqb_eq in E; subst k0. simpl.
      destruct (string_dec k k); [reflexivity|contradiction].
    + apply String.eqb_neq in E. simpl. rewrite IH.
      destruct (string_dec k0 k) as [Heq|Hne]; [congruence|].
      destruct (in_dec string_dec k (map fst d)); reflexivity.
Qed.

(** X11: the list kept by [refresh_environments] lists the paths in the
    order of their first appearance in the scan result (a dict keeps the
    position of a key's first insertion), and each path carries the record
    seen last for it. *)
Theorem dedup_by_path_first_occurrence_order (envs : list Environment) :
  map path (dedup_by_path envs) = rev (nodup string_dec (rev (map path envs)))
  /\ (forall e, In e (dedup_by_path envs) ->
        exists l1 l2, envs = (l1 ++ e :: l2)%list /\ forall e', In e' l2 -> path e' <> path e).
Proof.
  split; [|exact (proj2 (proj2 (dedup_by_path_props envs)))].
  rewrite dedup_by_path_keys.
  induction envs as [|e envs IH] using rev_ind; [reflexivity|].
  rewrite dedup_dict_snoc, keys_dict_set, map_app, rev_app_distr. simpl.
  destruct (dedup_dict_inv envs) as [_ [Hkeys _]].
  destruct (in_dec string_dec (path e) (map fst (dedup_dict envs))) as [Hin|Hin];
  destruct (in_dec string_dec (path e) (rev (map path envs))) as [Hin'|Hin'].
  - exact IH.
  - exfalso. apply Hin'. rewrite <- in_rev. now apply Hkeys.
  - exfalso. apply Hin, Hkeys. now rewrite <- in_rev in Hin'.
  - simpl. now rewrite IH.
Qed.

Lemma dict_set_fresh (k : string) (v : Environment) (d : list (string * Environment)) :
  ~ In k (map fst d) -> dict_set k v d = (d ++ [(k, v)])%list.
Proof.
  induction d as [|[k0 v0] d IH]; simpl; intros Hn; [reflexivity|].
  destruct (String.eqb k k0) eqn:E.
  - apply String.eqb_eq in E; subst. exfalso. now apply Hn; left.
  - rewrite IH; [reflexivity|]. intros H; apply Hn; now right.
Qed.

Lemma fold_dict_set_distinct (l : list Environment) (d : list (string * Environment)) :
  NoDup (map path l) -> (forall e, In e l -> ~ In (path e) (map fst d)) ->
  fold_left (fun d env => dict_set (path env) env d) l d
  = (d ++ map (fun e => (path e, e)) l)%list.
Proof.
  revert d; induction l as [|e l IH]; intros d Hnd Hfresh; simpl.
  - now rewrite app_nil_r.
  - inversion Hnd as [|? ? Hnin Hnd']; subst.
    rewrite dict_set_fresh by (apply Hfresh; now left).
    rewrite IH; [now rewrite <- app_assoc|exact Hnd'|].
    intros e' He'. rewrite map_app. simpl. intros H.
    apply in_app_or in H as [H|[H|[]]].
    + apply (Hfresh e'); [now right|exact H].
    + apply Hnin. rewrite H. now apply in_map.
Qed.

Lemma dedup_by_path_distinct (envs : list Environment) :
  NoDup (map path envs) -> dedup_by_path envs = envs.
Proof.
  intros Hnd. unfold dedup_by_path.
  rewrite (fold_dict_set_distinct envs [] Hnd) by (intros ? ? []).
  simpl. rewrite map_map. apply map_id.
Qed.

(** X12: a scan result whose paths are pairwise distinct is kept by
    [refresh_environments] unchanged, in its order. *)
Theorem dedup_by_path_no_duplicates (envs : list Environment) :
  NoDup (map path envs) -> dedup_by_path envs = envs.
Proof. exact (dedup_by_path_distinct envs). Qed.

Lemma dedup_by_path_no_duplicates_witness :
  NoDup (map path [env_myenv; env_conda_base])
  /\ dedup_by_path [env_myenv; env_conda_base] = [env_myenv; env_conda_base].
Proof.
  assert (H : NoDup (map path [env_myenv; env_conda_base])).
  { simpl. constructor; [simpl; intros [H|[]]; discriminate H|].
    constructor; [intros []|constructor]. }
  split; [exact H|]. exact (dedup_by_path_no_duplicates _ H).
Defined.

(** X13: deduplicating twice is deduplicating once. *)
Theorem dedup_by_path_idempotent (envs : list Environment) :
  dedup_by_path (dedup_by_path envs) = dedup_by_path envs.
Proof.
  apply dedup_by_path_distinct. exact (proj1 (dedup_by_path_props envs)).
Qed.

(** X14: without a selected row, or when the user does not answer Yes,
    [delete_selected] removes nothing and leaves the window's lists as they
    were. *)
Theorem delete_selected_requires_confirmation
    (rm cr : FS -> string -> FS * option string) (fs : FS) (w : Window)
    (selected : option nat) (reply_yes : bool) (r : FS * Window * list ui_event) :
  selected = None \/ reply_yes = false ->
  delete_selected rm cr fs w selected reply_yes = Returned r ->
  fst (fst r) = fs /\ snd (fst r) = w.
Proof.
  intros Hg. unfold delete_selected.
  destruct selected as [row|].
  - destruct Hg as [Hg | ->]; [discriminate|].
    destruct (nth_error (table_envs w) row); [|discriminate].
    simpl. intros H. injection H; intros <-. now split.
  - intros H. injection H; intros <-. now split.
Qed.

Lemma delete_selected_requires_confirmation_witness :
  delete_selected rmtree_ok rmtree_ok (fs_myenv "/home/u") window_myenv (Some 0%nat) false
  = Returned (fs_myenv "/home/u", window_myenv, [AskConfirm env_myenv])
  /\ snd (fst (fs_myenv "/home/u", window_myenv, [AskConfirm env_myenv])) = window_myenv.
Proof.
  assert (H : delete_selected rmtree_ok rmtree_ok (fs_myenv "/home/u") window_myenv (Some 0%nat) false
              = Returned (fs_myenv "/home/u", window_myenv, [AskConfirm env_myenv]))
    by reflexivity.
  split; [exact H|].
  exact (proj2 (delete_selected_requires_confirmation rmtree_ok rmtree_ok _ _ _ _ _
                  (or_intror eq_refl) H)).
Defined.

(** X15: with a selected row and a Yes, [delete_selected] runs
    [delete_environment] on that row's environment and then, whatever the
    outcome, refreshes: the table and [all_envs] become the deduplicated
    discovery of the world after the deletion (distinct paths), and the last
    message reports their count. *)
Theorem delete_selected_then_refresh
    (rm cr : FS -> string -> FS * option string) (fs : FS) (w : Window)
    (row : nat) (env : Environment) :
  nth_error (table_envs w) row = Some env ->
  exists fs' w' evs,
    delete_selected rm cr fs w (Some row) true = Returned (fs', w', evs)
    /\ fs' = fst (delete_environment rm cr fs env)
    /\ table_envs w' = refresh_envs fs' /\ all_envs w' = table_envs w'
    /\ NoDup (map path (table_envs w'))
    /\ last evs WarnNoSelection = FoundEnvironments (length (table_envs w')).
Proof.
  intros Hrow. unfold delete_selected. rewrite Hrow. simpl.
  destruct (delete_environment rm cr fs env) as [fs' [success message]] eqn:Hd.
  simpl. eexists _, _, _. split; [reflexivity|].
  split; [reflexivity|]. split; [reflexivity|]. split; [reflexivity|].
  split; [exact (proj1 (dedup_by_path_props _))|].
  destruct success; reflexivity.
Qed.

Lemma delete_selected_then_refresh_witness :
  nth_error (table_envs window_myenv) 0 = Some env_myenv
  /\ exists fs' w' evs,
    delete_selected rmtree_ok rmtree_ok (fs_myenv "/home/u") window_myenv (Some 0%nat) true
    = Returned (fs', w', evs)
    /\ last evs WarnNoSelection = FoundEnvironments (length (table_envs w')).
Proof.
  split; [reflexivity|].
  destruct (delete_selected_then_refresh rmtree_ok rmtree_ok (fs_myenv "/home/u") window_myenv
              0 env_myenv eq_refl) as (fs' & w' & evs & H1 & _ & _ & _ & _ & H2).
  exists fs', w', evs. now split.
Defined.

Example delete_selected_myenv_table_empty :
  match delete_selected rmtree_ok rmtree_ok (fs_myenv "/home/u") window_myenv (Some 0%nat) true with
  | Returned (_, w', _) => table_envs w'
  | Raised _ => [env_myenv]
  end = [].
Proof. vm_compute. reflexivity. Qed.
